(** * Line Repeator (src/pyautogui/Main.py): a shallow embedding

    The script asks for a line and a repeat count through two small Tk
    dialogs and then retypes the line with pyautogui.  Every effect of the
    script is a call into a collaborator (tkinter, pyautogui, time, sys), so
    the embedding records those calls, in program order, as a trace of
    events; the module global [input_value] and the pending decisions of the
    user form the state that is threaded through. *)

From Stdlib Require Import String Ascii List ZArith NArith QArith Lia Bool.
From Stdlib Require Import DecimalString DecimalPos.
Import ListNotations.

Local Open Scope string_scope.
Local Open Scope Z_scope.

(** ** Python values, exceptions and the event trace *)

(** The values that reach [line] and [times]: a [str] or [None].  A [str]
    is a Rocq [string], one character per code point (code points below
    256). *)
Inductive pyval : Type :=
| PyNone
| PyStr (s : string).

(** The exceptions the script can meet; none of them is caught anywhere in
    the script. *)
Inductive exn : Type :=
| SystemExit                      (* sys.exit() *)
| ValueError_int (literal : string) (* int(s): invalid literal *)
| ValueError_sleep                (* time.sleep(d) with d < 0 *)
| OverflowError_sleep             (* time.sleep(d), d beyond 2^63 ns *)
| PlatformLimit_sleep             (* time.sleep(d), d beyond the sure range *)
| ValueError_format               (* f"{n}" with n of more than 4300 digits *)
| TypeError_concat                (* str + None *)
| TypeError_int                   (* int(None) *)
| TypeError_iter.                 (* for c in None, inside typewrite *)

(** The three widgets the click handlers destroy, under their source
    names. *)
Inductive widget : Type := b1 | b2 | res.

Inductive event : Type :=
| TkWindow (Title Message : string)   (* Tk(), title, label, field, buttons *)
| WidgetDestroy (w : widget)
| LabelConfig (text : string)         (* status_label.config(text=...) *)
| RootUpdate
| RootDestroy
| Sleep (seconds : Q)                 (* time.sleep *)
| ShowInfo (title message : string)   (* messagebox.showinfo *)
| Typewrite (message : string) (interval : Q)
| Press (key : string)
| Hotkey (keys : list string).

(** What the user does with one dialog. [ClickSubmit text] carries the
    content of the text field at the click. *)
Inductive user_action : Type :=
| ClickSubmit (text : string)
| ClickCancel
| CloseWindow.

Record world : Type := World {
  input_value : pyval;          (* the module global, None at start *)
  user : list user_action       (* one decision per dialog still to come *)
}.

Definition initial (us : list user_action) : world :=
  {| input_value := PyNone; user := us |}.

Inductive result (A : Type) : Type :=
| Ok (a : A)
| Raise (e : exn)
| Blocks.                       (* mainloop waits for a user who never acts *)
Arguments Ok {A} a.
Arguments Raise {A} e.
Arguments Blocks {A}.

(** ** The effect monad: trace, state and uncaught exceptions *)

Record run (A : Type) : Type := Run {
  trace : list event;
  final : world;
  outcome : result A
}.
Arguments Run {A} _ _ _.
Arguments trace {A} _.
Arguments final {A} _.
Arguments outcome {A} _.

Definition M (A : Type) : Type := world -> run A.

Definition ret {A} (a : A) : M A := fun w => Run [] w (Ok a).

Definition bind {A B} (m : M A) (f : A -> M B) : M B := fun w =>
  let r := m w in
  match outcome r with
  | Ok a => let r' := f a (final r) in
            Run (trace r ++ trace r') (final r') (outcome r')
  | Raise e => Run (trace r) (final r) (Raise e)
  | Blocks => Run (trace r) (final r) Blocks
  end.

Declare Scope py_scope.
Delimit Scope py_scope with py.
Notation "x <- c1 ;; c2" := (bind c1 (fun x => c2))
  (at level 100, c1 at next level, right associativity) : py_scope.
Notation "c1 ;; c2" := (bind c1 (fun _ => c2))
  (at level 100, right associativity) : py_scope.
Local Open Scope py_scope.

Definition emit (e : event) : M unit := fun w => Run [e] w (Ok tt).
Definition raise {A} (e : exn) : M A := fun w => Run [] w (Raise e).

Fixpoint for_each {A} (xs : list A) (body : A -> M unit) : M unit :=
  match xs with
  | [] => ret tt
  | x :: xs' => body x ;; for_each xs' body
  end.

(** range(start, stop): empty when stop <= start. *)
Definition range (start stop : Z) : list Z :=
  map (fun k => start + Z.of_nat k) (seq 0 (Z.to_nat (stop - start))).

(** ** The builtins and library calls the script uses *)

(** time.sleep converts its argument to nanoseconds in a signed 64-bit
    integer, which raises OverflowError from 9223372037 seconds on, in
    either direction; it then raises ValueError on a negative argument
    and otherwise blocks for that long.  How long a sleep the clock of the
    platform takes differs from one platform to the other: up to
    [sleep_sure] seconds (2^32 - 1 milliseconds) every one of them sleeps.
    For a longer duration below the overflow bound, and for a negative
    float within a second of that bound, the platform decides between
    sleeping, OverflowError, OSError and ValueError: the model stops the
    run there with [PlatformLimit_sleep] and does not say which. *)
Definition sleep_sure : Q := 4294967.
Definition sleep_overflow : Q := 9223372037.

Definition sleep_accepts (seconds : Q) : bool :=
  Qle_bool 0 seconds && Qle_bool seconds sleep_sure.

Definition time_sleep (seconds : Q) : M unit :=
  if Qle_bool sleep_overflow seconds || Qle_bool seconds (- sleep_overflow)
  then raise OverflowError_sleep
  else if Qle_bool 0 seconds then
    if Qle_bool seconds sleep_sure then emit (Sleep seconds)
    else raise PlatformLimit_sleep
  else if Qle_bool (-9223372036) seconds then raise ValueError_sleep
  else raise PlatformLimit_sleep.

Definition sys_exit {A} : M A := raise SystemExit.

(** pyautogui.typewrite iterates over its message. *)
Definition typewrite (message : pyval) (interval : Q) : M unit :=
  match message with
  | PyStr s => emit (Typewrite s interval)
  | PyNone => raise TypeError_iter
  end.

Definition press (key : string) : M unit := emit (Press key).
Definition hotkey (keys : list string) : M unit := emit (Hotkey keys).

(** "literal" + x for a value x. *)
Definition str_add (s : string) (x : pyval) : M string :=
  match x with
  | PyStr t => ret (s ++ t)
  | PyNone => raise TypeError_concat
  end.

(** The decimal numeral of an int, as str(n) writes it. *)
Definition str_of_int (n : Z) : string := NilZero.string_of_int (Z.to_int n).

(** The conversion of an int to a str, as an f-string does it for {n}: it
    raises ValueError for an int of more than [int_max_str_digits] decimal
    digits, that is from 10^4300 on in absolute value. *)
Definition int_max_str_digits : N := 4300.

Definition format_int (n : Z) : M string :=
  if Z.abs n <? 10 ^ Z.of_N int_max_str_digits then ret (str_of_int n)
  else raise ValueError_format.

(** *** int(s)

    CPython's conversion of a str in base 10: white space is skipped at
    both ends (tab to carriage return, space, and, past ASCII, NEL and the
    no-break space), one sign is allowed, then decimal digits with single
    underscores allowed between digits; leading zeros are fine.  More than
    [int_max_str_digits] digits are refused (the interpreter's default
    limit).  Anything else raises ValueError. *)
Definition int_space (c : ascii) : bool :=
  let n := N_of_ascii c in
  (((9 <=? n) && (n <=? 13)) || (n =? 32) || (n =? 133) || (n =? 160))%N.

Definition digit_of (c : ascii) : option Z :=
  let n := N_of_ascii c in
  if ((48 <=? n) && (n <=? 57))%N then Some (Z.of_N n - 48) else None.

Fixpoint skip_space (s : string) : string :=
  match s with
  | String c r => if int_space c then skip_space r else s
  | EmptyString => s
  end.

Fixpoint scan_digits (s : string) (prev_underscore : bool) (acc : Z)
  (digits : N) : option (Z * N * string) :=
  match s with
  | EmptyString => if prev_underscore then None else Some (acc, digits, s)
  | String c r =>
      if Ascii.eqb c "_" then
        if prev_underscore then None else scan_digits r true acc digits
      else
        match digit_of c with
        | Some d => scan_digits r false (10 * acc + d) (N.succ digits)
        | None => if prev_underscore then None else Some (acc, digits, s)
        end
  end.

Definition py_int (s : string) : option Z :=
  let s1 := skip_space s in
  let '(sign, s2) :=
    match s1 with
    | String "+" r => (1, r)
    | String "-" r => (-1, r)
    | _ => (1, s1)
    end in
  match s2 with
  | String "_" _ => None
  | _ =>
      match scan_digits s2 false 0 0 with
      | Some (v, digits, rest) =>
          if (digits =? 0)%N then None
          else if (int_max_str_digits <? digits)%N then None
          else match skip_space rest with
               | EmptyString => Some (sign * v)
               | String _ _ => None
               end
      | None => None
      end
  end.

Definition int (x : pyval) : M Z :=
  match x with
  | PyStr s => match py_int s with
               | Some n => ret n
               | None => raise (ValueError_int s)
               end
  | PyNone => raise TypeError_int
  end.

(** ** get_input_from_tk_window *)

Definition set_input_value (v : pyval) : M unit :=
  fun w => Run [] {| input_value := v; user := user w |} (Ok tt).

Definition get_input_value : M pyval :=
  fun w => Run [] w (Ok (input_value w)).

(** The next decision of the user; the event loop waits when there is
    none. *)
Definition next_user_action : M user_action := fun w =>
  match user w with
  | a :: rest => Run [] {| input_value := input_value w; user := rest |} (Ok a)
  | [] => Run [] w Blocks
  end.

Definition cancel_click : M unit :=
  emit (WidgetDestroy b1) ;;
  emit (WidgetDestroy b2) ;;
  emit (WidgetDestroy res) ;;
  time_sleep 2%Q ;;
  emit (LabelConfig "Exiting Application...") ;;
  emit RootUpdate ;;
  time_sleep 2%Q ;;
  emit RootDestroy ;;
  sys_exit.

(** [text] is what res.get("1.0", "end-1c") reads at the click. *)
Definition submit_click (text : string) : M unit :=
  let result := text in
  emit (WidgetDestroy res) ;;
  emit (WidgetDestroy b1) ;;
  emit (WidgetDestroy b2) ;;
  (if String.eqb result "" then
     emit (LabelConfig "No Value Submitted") ;;
     emit RootUpdate ;;
     cancel_click
   else ret tt) ;;
  emit (LabelConfig ("Submitted value: " ++ result)) ;;
  emit RootUpdate ;;
  time_sleep 2%Q ;;
  emit RootDestroy ;;
  set_input_value (PyStr result).

(** root.mainloop(): runs the handler of the button the user clicks; it
    returns once the root window is destroyed, and lets SystemExit
    through.  Closing the window destroys the root without any handler. *)
Definition mainloop : M unit :=
  a <- next_user_action ;;
  match a with
  | ClickSubmit text => submit_click text
  | ClickCancel => cancel_click
  | CloseWindow => emit RootDestroy
  end.

Definition get_input_from_tk_window (Title Message : string) : M pyval :=
  emit (TkWindow Title Message) ;;
  mainloop ;;
  get_input_value.

(** ** repeat_line and line_repeater *)

Definition repeat_line (line : pyval) (times : Z) (delay : Q) (key : string)
  : M unit :=
  for_each (range 0 times) (fun i =>
    typewrite line (1 # 10) ;;
    (if String.eqb key "enter" then press "enter"
     else if String.eqb key "shift+enter" then hotkey ["shift"; "enter"]
     else ret tt) ;;
    time_sleep delay).

(** Defaults of repeat_line's optional parameters, delay=0 and
    key="enter"; line_repeater passes both explicitly. *)
Definition repeat_line_default_delay : Q := 0%Q.
Definition repeat_line_default_key : string := "enter".

(** A call of repeat_line that may leave out the delay, the key or
    both. *)
Definition call_repeat_line (line : pyval) (times : Z) (delay : option Q)
  (key : option string) : M unit :=
  repeat_line line times
    (match delay with Some d => d | None => repeat_line_default_delay end)
    (match key with Some k => k | None => repeat_line_default_key end).

Definition line_repeater (wait_before_start : Z) : M unit :=
  line <- get_input_from_tk_window "Line Repeator" "Enter the line:" ;;
  times <- get_input_from_tk_window "Line Repeator"
             "Enter the number of times to be repeated:" ;;
  head <- str_add "The line will be repeated " times ;;
  seconds <- format_int wait_before_start ;;
  emit (ShowInfo "Line Repeator"
          (head ++ " times. Please switch to the target application and click on the text box to start the process in "
                ++ seconds ++ " Seconds.")) ;;
  time_sleep (inject_Z wait_before_start) ;;
  n <- int times ;;
  repeat_line line n (1 # 2) "shift+enter".

(** The default of line_repeater's optional parameter, and a call that
    may leave the argument out. *)
Definition line_repeater_default_wait : Z := 10.

Definition call_line_repeater (wait_before_start : option Z) : M unit :=
  match wait_before_start with
  | Some w => line_repeater w
  | None => line_repeater line_repeater_default_wait
  end.

(** The script's entry point: line_repeater(wait_before_start=7). *)
Definition main : M unit := call_line_repeater (Some 7).

(** ** Observations on traces *)

Definition is_press (e : event) : bool :=
  match e with Press _ => true | _ => false end.

Definition is_hotkey (e : event) : bool :=
  match e with Hotkey _ => true | _ => false end.

(** A submit-key action is a key press or a key combination. *)
Definition is_submit (e : event) : bool := is_press e || is_hotkey e.

Definition is_typewrite (e : event) : bool :=
  match e with Typewrite _ _ => true | _ => false end.

Definition is_keystroke (e : event) : bool := is_typewrite e || is_submit e.

Definition count (p : event -> bool) (tr : list event) : nat :=
  length (filter p tr).

(** The characters typed: typewrite types its message one character at a
    time. *)
Definition typed_chars (tr : list event) : nat :=
  list_sum (map (fun e => match e with
                          | Typewrite s _ => String.length s
                          | _ => 0%nat
                          end) tr).

Definition sleeps (tr : list event) : list Q :=
  flat_map (fun e => match e with Sleep d => [d] | _ => [] end) tr.

(** The submit events of one iteration, by key. *)
Definition submit_events (key : string) : list event :=
  if String.eqb key "enter" then [Press "enter"]
  else if String.eqb key "shift+enter" then [Hotkey ["shift"; "enter"]]
  else [].

(** The events of one complete iteration of repeat_line on a str. *)
Definition iteration (line : string) (delay : Q) (key : string) : list event :=
  Typewrite line (1 # 10) :: submit_events key ++ [Sleep delay].

(** The pre-start countdown: the sleep that follows the acknowledgment. *)
Fixpoint countdown_of (tr : list event) : option Q :=
  match tr with
  | ShowInfo _ _ :: Sleep d :: _ => Some d
  | _ :: tr' => countdown_of tr'
  | [] => None
  end.

(** What happens after the countdown. *)
Fixpoint after_countdown (tr : list event) : list event :=
  match tr with
  | ShowInfo _ _ :: Sleep _ :: rest => rest
  | _ :: tr' => after_countdown tr'
  | [] => []
  end.

Definition iteration_delays (tr : list event) : list Q :=
  sleeps (after_countdown tr).

(** ** The dialog and the orchestration, observed *)

Definition is_showinfo (e : event) : bool :=
  match e with ShowInfo _ _ => true | _ => false end.

(** The events a dialog can produce. *)
Definition is_dialog (e : event) : bool :=
  match e with
  | TkWindow _ _ | WidgetDestroy _ | LabelConfig _
  | RootUpdate | RootDestroy | Sleep _ => true
  | ShowInfo _ _ | Typewrite _ _ | Press _ | Hotkey _ => false
  end.

(** The user gives up on a dialog: Cancel, or Submit on an empty field. *)
Definition gives_up (a : user_action) : bool :=
  match a with
  | ClickCancel => true
  | ClickSubmit text => String.eqb text ""
  | CloseWindow => false
  end.

(** The events of cancel_click, in program order. *)
Definition cancel_events : list event :=
  [WidgetDestroy b1; WidgetDestroy b2; WidgetDestroy res; Sleep 2;
   LabelConfig "Exiting Application..."; RootUpdate; Sleep 2; RootDestroy].

(** What submit_click does before it hands over to cancel_click. *)
Definition no_value_events : list event :=
  [WidgetDestroy res; WidgetDestroy b1; WidgetDestroy b2;
   LabelConfig "No Value Submitted"; RootUpdate].

Definition submitted_events (text : string) : list event :=
  [WidgetDestroy res; WidgetDestroy b1; WidgetDestroy b2;
   LabelConfig ("Submitted value: " ++ text); RootUpdate; Sleep 2;
   RootDestroy].

(** The text of the acknowledgment for a count string and a countdown. *)
Definition ack_message (count : string) (c : Z) : string :=
  ("The line will be repeated " ++ count)
  ++ " times. Please switch to the target application and click on the text box to start the process in "
  ++ str_of_int c ++ " Seconds.".

Definition acknowledgment (count : string) (c : Z) : event :=
  ShowInfo "Line Repeator" (ack_message count c).

Definition line_title : string := "Line Repeator".
Definition line_message : string := "Enter the line:".
Definition count_message : string :=
  "Enter the number of times to be repeated:".

(** ** Statements and concrete runs *)

(** A run that returns, has typed [line] exactly [times] times, and has
    issued no submit-key action. *)
Definition types_without_submit (line : string) (times : Z) (r : run unit)
  : Prop :=
  outcome r = Ok tt /\
  filter is_typewrite (trace r)
    = repeat (Typewrite line (1 # 10)) (Z.to_nat times) /\
  count is_submit (trace r) = 0%nat.

(** Two answers: the line "hello" and the count "3". *)
Definition hello3 : world := initial [ClickSubmit "hello"; ClickSubmit "3"].
Definition hello3_w1 : world :=
  {| input_value := PyStr "hello"; user := [ClickSubmit "3"] |}.
Definition hello3_w2 : world := {| input_value := PyStr "3"; user := [] |}.
Definition hello3_tr1 : list event :=
  TkWindow line_title line_message :: submitted_events "hello".
Definition hello3_tr2 : list event :=
  TkWindow line_title count_message :: submitted_events "3".

(** The same line with the count "abc". *)
Definition helloabc : world :=
  initial [ClickSubmit "hello"; ClickSubmit "abc"].
Definition helloabc_w1 : world :=
  {| input_value := PyStr "hello"; user := [ClickSubmit "abc"] |}.
Definition helloabc_w2 : world :=
  {| input_value := PyStr "abc"; user := [] |}.
Definition helloabc_tr2 : list event :=
  TkWindow line_title count_message :: submitted_events "abc".

(** ** Decimal numerals *)

(** The value of a numeral read from the left, digit by digit, as int()
    accumulates it. *)
Fixpoint uint_value (d : Decimal.uint) (acc : Z) : Z :=
  match d with
  | Decimal.Nil => acc
  | Decimal.D0 d' => uint_value d' (10 * acc + 0)
  | Decimal.D1 d' => uint_value d' (10 * acc + 1)
  | Decimal.D2 d' => uint_value d' (10 * acc + 2)
  | Decimal.D3 d' => uint_value d' (10 * acc + 3)
  | Decimal.D4 d' => uint_value d' (10 * acc + 4)
  | Decimal.D5 d' => uint_value d' (10 * acc + 5)
  | Decimal.D6 d' => uint_value d' (10 * acc + 6)
  | Decimal.D7 d' => uint_value d' (10 * acc + 7)
  | Decimal.D8 d' => uint_value d' (10 * acc + 8)
  | Decimal.D9 d' => uint_value d' (10 * acc + 9)
  end.

(** What int() makes of the outcome of the digit scan, for a sign. *)
Definition int_finish (sign : Z) (scanned : option (Z * N * string))
  : option Z :=
  match scanned with
  | Some (v, digits, rest) =>
      if (digits =? 0)%N then None
      else if (int_max_str_digits <? digits)%N then None
      else match skip_space rest with
           | EmptyString => Some (sign * v)
           | String _ _ => None
           end
  | None => None
  end.

(** The number of decimal digits of str(n). *)
Definition digits_of_int (n : Z) : N :=
  N.of_nat (String.length (NilZero.string_of_uint (Decimal.abs (Z.to_int n)))).

(** ** Basic facts about the monad and the builtins *)

Lemma bind_ok {A B} (m : M A) (f : A -> M B) w t w' a :
  m w = Run t w' (Ok a) ->
  bind m f w = Run (t ++ trace (f a w')) (final (f a w')) (outcome (f a w')).
Proof. intros H. unfold bind. rewrite H. reflexivity. Qed.

Lemma bind_raise {A B} (m : M A) (f : A -> M B) w t w' e :
  m w = Run t w' (Raise e) -> bind m f w = Run t w' (Raise e).
Proof. intros H. unfold bind. rewrite H. reflexivity. Qed.

Lemma bind_ok_eq {A B} (m : M A) (f : A -> M B) w t w' a t2 w2 o :
  m w = Run t w' (Ok a) -> f a w' = Run t2 w2 o ->
  bind m f w = Run (t ++ t2) w2 o.
Proof. intros H1 H2. unfold bind. rewrite H1. cbn. rewrite H2. reflexivity. Qed.

Lemma Qle_bool_false (a b : Q) : (b < a)%Q -> Qle_bool a b = false.
Proof.
  intros H. destruct (Qle_bool a b) eqn:E; [|reflexivity].
  apply Qle_bool_iff in E. exfalso. exact (Qlt_not_le _ _ H E).
Qed.

Lemma Qle_bool_true (a b : Q) : (a <= b)%Q -> Qle_bool a b = true.
Proof. intros H. apply Qle_bool_iff. exact H. Qed.

Lemma sleep_accepts_range (d : Q) :
  (0 <= d)%Q -> (d <= sleep_sure)%Q -> sleep_accepts d = true.
Proof.
  intros H0 H1. unfold sleep_accepts.
  rewrite (Qle_bool_true _ _ H0), (Qle_bool_true _ _ H1). reflexivity.
Qed.

(** Within the sure range time.sleep sleeps. *)
Lemma time_sleep_ok (d : Q) w :
  (0 <= d)%Q -> (d <= sleep_sure)%Q ->
  time_sleep d w = Run [Sleep d] w (Ok tt).
Proof.
  intros H0 H1. unfold time_sleep.
  rewrite (Qle_bool_false sleep_overflow d).
  - rewrite (Qle_bool_false d (- sleep_overflow)).
    + rewrite (Qle_bool_true _ _ H0), (Qle_bool_true _ _ H1). reflexivity.
    + apply Qlt_le_trans with (y := 0%Q); [reflexivity|exact H0].
  - apply Qle_lt_trans with (y := sleep_sure); [exact H1|reflexivity].
Qed.

(** Outside of it time.sleep raises, before any sleep. *)
Lemma time_sleep_refuses (d : Q) :
  sleep_accepts d = false ->
  exists e, forall w, time_sleep d w = Run [] w (Raise e).
Proof.
  intros H. unfold time_sleep, sleep_accepts in *.
  destruct (Qle_bool sleep_overflow d || Qle_bool d (- sleep_overflow));
    [eexists; reflexivity|].
  destruct (Qle_bool 0 d).
  - cbn [andb] in H. rewrite H. eexists; reflexivity.
  - destruct (Qle_bool (-9223372036) d); eexists; reflexivity.
Qed.

Lemma time_sleep_negative (d : Q) w :
  (-9223372036 <= d)%Q -> (d < 0)%Q ->
  time_sleep d w = Run [] w (Raise ValueError_sleep).
Proof.
  intros H0 H1. unfold time_sleep.
  rewrite (Qle_bool_false sleep_overflow d).
  - rewrite (Qle_bool_false d (- sleep_overflow)).
    + rewrite (Qle_bool_false 0 d H1), (Qle_bool_true _ _ H0). reflexivity.
    + apply Qlt_le_trans with (y := (-9223372036)%Q); [reflexivity|exact H0].
  - apply Qlt_trans with (y := 0%Q); [exact H1|reflexivity].
Qed.

Lemma time_sleep_overflows (d : Q) w :
  (sleep_overflow <= d)%Q \/ (d <= - sleep_overflow)%Q ->
  time_sleep d w = Run [] w (Raise OverflowError_sleep).
Proof.
  intros H. unfold time_sleep.
  destruct H as [H|H]; rewrite (Qle_bool_true _ _ H);
    [|rewrite orb_true_r]; reflexivity.
Qed.

Lemma sleep_accepts_inject_Z (c : Z) :
  sleep_accepts (inject_Z c) = (0 <=? c) && (c <=? 4294967).
Proof.
  unfold sleep_accepts, Qle_bool, inject_Z, sleep_sure. cbn [Qnum Qden].
  rewrite !Z.mul_1_r. reflexivity.
Qed.

Lemma inject_Z_nonneg (z : Z) : 0 <= z -> (0 <= inject_Z z)%Q.
Proof. intros H. unfold Qle, inject_Z; simpl. lia. Qed.

Lemma inject_Z_le (a b : Z) : a <= b -> (inject_Z a <= inject_Z b)%Q.
Proof. intros H. unfold Qle, inject_Z; simpl. lia. Qed.

Lemma inject_Z_lt (a b : Z) : a < b -> (inject_Z a < inject_Z b)%Q.
Proof. intros H. unfold Qlt, inject_Z; simpl. lia. Qed.

(** An int that time.sleep does not refuse with OverflowError has few
    digits. *)
Lemma format_int_small (n : Z) w :
  -9223372037 <= n <= 9223372037 ->
  format_int n w = Run [] w (Ok (str_of_int n)).
Proof.
  intros H. unfold format_int.
  assert (Hp : 10 ^ 10 <= 10 ^ Z.of_N int_max_str_digits)
    by (apply Z.pow_le_mono_r; [lia|discriminate]).
  change (10 ^ 10) with 10000000000 in Hp.
  destruct (Z.ltb_spec (Z.abs n) (10 ^ Z.of_N int_max_str_digits)) as [_|Hge];
    [reflexivity|lia].
Qed.

Lemma length_range (times : Z) : length (range 0 times) = Z.to_nat times.
Proof.
  unfold range. rewrite length_map, length_seq. f_equal. lia.
Qed.

Lemma range_nonpos (times : Z) : times <= 0 -> range 0 times = [].
Proof.
  intros H. unfold range.
  replace (Z.to_nat (times - 0)) with 0%nat by lia. reflexivity.
Qed.

Lemma range_pos (times : Z) :
  1 <= times -> exists x xs, range 0 times = x :: xs.
Proof.
  intros H. unfold range.
  destruct (Z.to_nat (times - 0)) as [|n] eqn:E; [lia|].
  simpl. eauto.
Qed.

(** A loop whose body always succeeds with the same events and leaves the
    state alone. *)
Lemma for_each_uniform {A} (xs : list A) (body : A -> M unit) tr :
  (forall x w, body x w = Run tr w (Ok tt)) ->
  forall w, for_each xs body w = Run (concat (repeat tr (length xs))) w (Ok tt).
Proof.
  intros Hb. induction xs as [|x xs IH]; intros w; simpl.
  - reflexivity.
  - rewrite (bind_ok _ _ _ _ _ _ (Hb x w)). rewrite IH. reflexivity.
Qed.

(** A loop whose body always raises stops in its first iteration. *)
Lemma for_each_raises {A} (x : A) (xs : list A) (body : A -> M unit) tr e w :
  body x w = Run tr w (Raise e) ->
  for_each (x :: xs) body w = Run tr w (Raise e).
Proof. intros Hb. simpl. apply (bind_raise _ _ _ _ _ _ Hb). Qed.

(** ** Counting in repeated iterations *)

Lemma count_app p (t1 t2 : list event) :
  count p (t1 ++ t2) = (count p t1 + count p t2)%nat.
Proof. unfold count. rewrite filter_app, length_app. reflexivity. Qed.

Lemma count_iterations p (tr : list event) (n : nat) :
  count p (concat (repeat tr n)) = (n * count p tr)%nat.
Proof.
  induction n as [|n IH]; simpl; [reflexivity|].
  rewrite count_app, IH. reflexivity.
Qed.

Lemma typed_chars_app (t1 t2 : list event) :
  typed_chars (t1 ++ t2) = (typed_chars t1 + typed_chars t2)%nat.
Proof. unfold typed_chars. rewrite map_app, list_sum_app. reflexivity. Qed.

Lemma typed_chars_iterations (tr : list event) (n : nat) :
  typed_chars (concat (repeat tr n)) = (n * typed_chars tr)%nat.
Proof.
  induction n as [|n IH]; simpl; [reflexivity|].
  rewrite typed_chars_app, IH. reflexivity.
Qed.

Lemma sleeps_iterations (tr : list event) (n : nat) :
  sleeps (concat (repeat tr n)) = concat (repeat (sleeps tr) n).
Proof.
  induction n as [|n IH]; simpl; [reflexivity|].
  unfold sleeps in *. rewrite flat_map_app, IH. reflexivity.
Qed.

Lemma concat_repeat_singleton {A} (x : A) (n : nat) :
  concat (repeat [x] n) = repeat x n.
Proof. induction n as [|n IH]; simpl; [reflexivity|]. now rewrite IH. Qed.

(** ** repeat_line, run *)

Lemma submit_step (key : string) w :
  (if String.eqb key "enter" then press "enter"
   else if String.eqb key "shift+enter" then hotkey ["shift"; "enter"]
   else ret tt) w = Run (submit_events key) w (Ok tt).
Proof.
  unfold submit_events.
  destruct (String.eqb key "enter"); [reflexivity|].
  destruct (String.eqb key "shift+enter"); reflexivity.
Qed.

(** With a delay that time.sleep accepts, every iteration completes. *)
Lemma repeat_line_run (line : string) (times : Z) (delay : Q) (key : string) w :
  (0 <= delay)%Q -> (delay <= sleep_sure)%Q ->
  repeat_line (PyStr line) times delay key w
  = Run (concat (repeat (iteration line delay key) (Z.to_nat times))) w (Ok tt).
Proof.
  intros Hd Hs. unfold repeat_line.
  rewrite <- length_range.
  apply for_each_uniform. intros _ w0.
  unfold bind at 1. simpl.
  unfold bind. rewrite submit_step. simpl.
  rewrite (time_sleep_ok _ _ Hd Hs). reflexivity.
Qed.

(** With a delay that time.sleep refuses, the first iteration types,
    submits and then fails in time.sleep. *)
Lemma repeat_line_refused_delay (line : string) (times : Z) (delay : Q)
  (key : string) w e :
  1 <= times -> time_sleep delay w = Run [] w (Raise e) ->
  repeat_line (PyStr line) times delay key w
  = Run (Typewrite line (1 # 10) :: submit_events key) w (Raise e).
Proof.
  intros Ht Hd. unfold repeat_line.
  destruct (range_pos times Ht) as (x & xs & ->).
  apply for_each_raises.
  unfold bind at 1. simpl.
  unfold bind. rewrite submit_step. simpl.
  rewrite Hd. simpl. rewrite app_nil_r. reflexivity.
Qed.

Lemma sleep_accepts_cases (d : Q) :
  ((0 <= d)%Q /\ (d <= sleep_sure)%Q) \/ sleep_accepts d = false.
Proof.
  unfold sleep_accepts.
  destruct (Qle_bool 0 d) eqn:H0; [|right; reflexivity].
  destruct (Qle_bool d sleep_sure) eqn:H1; [|right; reflexivity].
  left. split; apply Qle_bool_iff; assumption.
Qed.

Lemma filter_iterations (p : event -> bool) (tr : list event) (n : nat) :
  filter p (concat (repeat tr n)) = concat (repeat (filter p tr) n).
Proof.
  induction n as [|n IH]; simpl; [reflexivity|].
  rewrite filter_app, IH. reflexivity.
Qed.

Lemma iteration_enter (line : string) (delay : Q) :
  iteration line delay "enter"
  = [Typewrite line (1 # 10); Press "enter"; Sleep delay].
Proof. reflexivity. Qed.

Lemma iteration_shift_enter (line : string) (delay : Q) :
  iteration line delay "shift+enter"
  = [Typewrite line (1 # 10); Hotkey ["shift"; "enter"]; Sleep delay].
Proof. reflexivity. Qed.

Lemma submit_events_other (key : string) :
  key <> "enter" -> key <> "shift+enter" -> submit_events key = [].
Proof.
  intros H1 H2. unfold submit_events.
  apply String.eqb_neq in H1, H2. rewrite H1, H2. reflexivity.
Qed.

(** ** Properties of repeat_line *)

(** C1, as stated, fails for a delay that time.sleep refuses:
    repeat_line("a", 2, -1, "enter") presses enter once, not twice, and
    ends with ValueError; with the delay 10^30 it presses once and ends
    with OverflowError. *)
Lemma repeat_line_enter_refused_delay :
  0 <= 2 /\
  repeat_line (PyStr "a") 2 (-1) "enter" (initial [])
  = Run [Typewrite "a" (1 # 10); Press "enter"] (initial [])
        (Raise ValueError_sleep) /\
  Z.of_nat (count is_submit
              (trace (repeat_line (PyStr "a") 2 (-1) "enter" (initial []))))
  <> 2 /\
  repeat_line (PyStr "a") 2 (inject_Z (10 ^ 30)) "enter" (initial [])
  = Run [Typewrite "a" (1 # 10); Press "enter"] (initial [])
        (Raise OverflowError_sleep).
Proof.
  split; [lia|]. split; [reflexivity|]. split; [|reflexivity].
  vm_compute. discriminate.
Qed.

(** C1, amended. With key "enter", a count [times >= 0] and a delay in
    the range where time.sleep is sure to sleep (0 <= delay <= 4294967
    seconds), repeat_line returns after exactly [times] submit-key
    actions, each a press of "enter", and exactly [times * len(line)]
    typed characters; with [times = 0] it does nothing at all. *)
Theorem repeat_line_enter_counts
  (line : string) (times : Z) (delay : Q) (w : world) :
  0 <= times -> (0 <= delay)%Q -> (delay <= sleep_sure)%Q ->
  let r := repeat_line (PyStr line) times delay "enter" w in
  outcome r = Ok tt /\
  filter is_submit (trace r) = repeat (Press "enter") (Z.to_nat times) /\
  Z.of_nat (count is_submit (trace r)) = times /\
  Z.of_nat (typed_chars (trace r)) = times * Z.of_nat (String.length line) /\
  (times = 0 -> trace r = []).
Proof.
  intros Ht Hd Hs r. subst r.
  rewrite (repeat_line_run line times delay "enter" w Hd Hs).
  rewrite iteration_enter. cbn [trace outcome].
  split; [reflexivity|]. split; [|split; [|split]].
  - rewrite filter_iterations. simpl. apply concat_repeat_singleton.
  - rewrite count_iterations. unfold count.
    cbn [filter is_submit is_press is_hotkey orb length]. lia.
  - rewrite typed_chars_iterations. unfold typed_chars.
    cbn [map list_sum fold_right]. nia.
  - intros ->. reflexivity.
Qed.

Lemma repeat_line_enter_counts_witness :
  let r := repeat_line (PyStr "hello") 3 0 "enter" (initial []) in
  outcome r = Ok tt /\
  filter is_submit (trace r) = repeat (Press "enter") 3 /\
  Z.of_nat (count is_submit (trace r)) = 3 /\
  Z.of_nat (typed_chars (trace r)) = 3 * 5 /\
  (3 = 0 -> trace r = []).
Proof.
  apply (repeat_line_enter_counts "hello" 3 0 (initial [])).
  - lia.
  - unfold Qle; simpl; lia.
  - unfold Qle; simpl; lia.
Defined.

(** C4. With key "shift+enter" and [times >= 1], whatever the delay, every
    submit action repeat_line issues is the combination shift+enter, it
    issues at least one, and it never issues a plain key press; when the
    delay is in the range where time.sleep is sure to sleep (0 <= delay
    <= 4294967 seconds), the run is [times] iterations of typewrite,
    hotkey, sleep. *)
Theorem repeat_line_shift_enter_hotkey
  (line : string) (times : Z) (delay : Q) (w : world) :
  1 <= times ->
  let r := repeat_line (PyStr line) times delay "shift+enter" w in
  (forall e, In e (trace r) -> is_submit e = true ->
             e = Hotkey ["shift"; "enter"]) /\
  (1 <= count is_hotkey (trace r))%nat /\
  count is_press (trace r) = 0%nat /\
  ((0 <= delay)%Q -> (delay <= sleep_sure)%Q ->
   outcome r = Ok tt /\
   trace r = concat (repeat [Typewrite line (1 # 10);
                             Hotkey ["shift"; "enter"];
                             Sleep delay] (Z.to_nat times))).
Proof.
  intros Ht r. subst r.
  destruct (sleep_accepts_cases delay) as [[Hd Hs]|Hno].
  - rewrite (repeat_line_run line times delay "shift+enter" w Hd Hs).
    rewrite iteration_shift_enter. cbn [trace outcome].
    split; [|split; [|split]].
    + intros e Hin Hsub.
      assert (Hf : In e (filter is_submit
                (concat (repeat [Typewrite line (1 # 10);
                                 Hotkey ["shift"; "enter"];
                                 Sleep delay] (Z.to_nat times))))).
      { apply filter_In. split; assumption. }
      rewrite filter_iterations in Hf. simpl in Hf.
      rewrite concat_repeat_singleton in Hf.
      apply repeat_spec in Hf. exact Hf.
    + rewrite count_iterations. unfold count. cbn [filter is_hotkey length]. lia.
    + rewrite count_iterations. unfold count. cbn [filter is_press length]. lia.
    + intros _ _. split; reflexivity.
  - destruct (time_sleep_refuses delay Hno) as [e He].
    rewrite (repeat_line_refused_delay line times delay "shift+enter" w e
               Ht (He w)).
    cbn [trace outcome]. split; [|split; [|split]].
    + intros e' [<-|[<-|[]]] Hsub; [discriminate Hsub|reflexivity].
    + unfold count. cbn [submit_events String.eqb Ascii.eqb Bool.eqb filter
                         is_hotkey length]. lia.
    + reflexivity.
    + intros Hq Hq'. rewrite (sleep_accepts_range delay Hq Hq') in Hno.
      discriminate Hno.
Qed.

Lemma repeat_line_shift_enter_hotkey_witness :
  let r := repeat_line (PyStr "hello") 3 (1 # 2) "shift+enter" (initial []) in
  (forall e, In e (trace r) -> is_submit e = true ->
             e = Hotkey ["shift"; "enter"]) /\
  (1 <= count is_hotkey (trace r))%nat /\
  count is_press (trace r) = 0%nat /\
  ((0 <= 1 # 2)%Q -> (1 # 2 <= sleep_sure)%Q ->
   outcome r = Ok tt /\
   trace r = concat (repeat [Typewrite "hello" (1 # 10);
                             Hotkey ["shift"; "enter"];
                             Sleep (1 # 2)] (Z.to_nat 3))).
Proof.
  apply (repeat_line_shift_enter_hotkey "hello" 3 (1 # 2) (initial [])).
  lia.
Defined.

(** C9, as stated, fails for a delay that time.sleep refuses:
    repeat_line("a", 2, -1, "tab") types "a" once and then raises
    ValueError in time.sleep; with the delay 10^30 it types "a" once and
    raises OverflowError. *)
Lemma repeat_line_other_key_negative_delay :
  0 <= 2 /\ "tab" <> "enter" /\ "tab" <> "shift+enter" /\
  repeat_line (PyStr "a") 2 (-1) "tab" (initial [])
    = Run [Typewrite "a" (1 # 10)] (initial []) (Raise ValueError_sleep) /\
  ~ types_without_submit "a" 2
      (repeat_line (PyStr "a") 2 (-1) "tab" (initial [])) /\
  repeat_line (PyStr "a") 2 (inject_Z (10 ^ 30)) "tab" (initial [])
    = Run [Typewrite "a" (1 # 10)] (initial []) (Raise OverflowError_sleep).
Proof.
  split; [lia|]. split; [discriminate|]. split; [discriminate|].
  split; [reflexivity|]. split; [|reflexivity].
  intros (Hok & _). discriminate Hok.
Qed.

(** C9, amended. For a key other than "enter" and "shift+enter", a count
    [times >= 0] and a delay in the range where time.sleep is sure to
    sleep (0 <= delay <= 4294967 seconds), repeat_line returns normally,
    having typed [line] exactly [times] times (each followed by the sleep)
    and issued no submit-key action. *)
Theorem repeat_line_other_key
  (line : string) (times : Z) (delay : Q) (key : string) (w : world) :
  0 <= times -> (0 <= delay)%Q -> (delay <= sleep_sure)%Q ->
  key <> "enter" -> key <> "shift+enter" ->
  let r := repeat_line (PyStr line) times delay key w in
  types_without_submit line times r /\
  trace r = concat (repeat [Typewrite line (1 # 10); Sleep delay]
                           (Z.to_nat times)).
Proof.
  intros Ht Hd Hs H1 H2 r. subst r.
  rewrite (repeat_line_run line times delay key w Hd Hs).
  unfold iteration. rewrite (submit_events_other key H1 H2).
  cbn [trace outcome app]. unfold types_without_submit. cbn [trace outcome].
  split; [split; [reflexivity|split]|reflexivity].
  - rewrite filter_iterations. simpl. apply concat_repeat_singleton.
  - rewrite count_iterations. unfold count.
    cbn [filter is_submit is_press is_hotkey orb length]. lia.
Qed.

Lemma repeat_line_other_key_witness :
  let r := repeat_line (PyStr "hello") 3 (1 # 2) "tab" (initial []) in
  types_without_submit "hello" 3 r /\
  trace r = concat (repeat [Typewrite "hello" (1 # 10); Sleep (1 # 2)]
                           (Z.to_nat 3)).
Proof.
  apply (repeat_line_other_key "hello" 3 (1 # 2) "tab" (initial [])).
  - lia.
  - unfold Qle; simpl; lia.
  - unfold Qle; simpl; lia.
  - discriminate.
  - discriminate.
Defined.

(** C10. For a negative count, whatever the line (a str or None), the delay
    and the key, repeat_line does nothing, leaves the state alone and
    returns normally. *)
Theorem repeat_line_negative_times
  (line : pyval) (times : Z) (delay : Q) (key : string) (w : world) :
  times < 0 -> repeat_line line times delay key w = Run [] w (Ok tt).
Proof.
  intros Ht. unfold repeat_line.
  rewrite range_nonpos by lia. reflexivity.
Qed.

Lemma repeat_line_negative_times_witness :
  repeat_line (PyStr "hello") (-3) (-1) "enter" (initial [])
  = Run [] (initial []) (Ok tt).
Proof.
  apply (repeat_line_negative_times (PyStr "hello") (-3) (-1) "enter").
  lia.
Defined.

(** ** The dialog, run *)

Lemma cancel_click_run w :
  cancel_click w = Run cancel_events w (Raise SystemExit).
Proof. reflexivity. Qed.

Lemma submit_click_empty w :
  submit_click "" w = Run (no_value_events ++ cancel_events) w (Raise SystemExit).
Proof. reflexivity. Qed.

Lemma submit_click_text (text : string) w :
  text <> "" ->
  submit_click text w
  = Run (submitted_events text)
        {| input_value := PyStr text; user := user w |} (Ok tt).
Proof.
  intros H. destruct text as [|c text]; [congruence|]. reflexivity.
Qed.

Lemma get_input_submit (Title Message text : string) v us :
  text <> "" ->
  get_input_from_tk_window Title Message
    {| input_value := v; user := ClickSubmit text :: us |}
  = Run (TkWindow Title Message :: submitted_events text)
        {| input_value := PyStr text; user := us |} (Ok (PyStr text)).
Proof.
  intros H. destruct text as [|c text]; [congruence|]. reflexivity.
Qed.

Lemma get_input_close (Title Message : string) v us :
  get_input_from_tk_window Title Message
    {| input_value := v; user := CloseWindow :: us |}
  = Run [TkWindow Title Message; RootDestroy]
        {| input_value := v; user := us |} (Ok v).
Proof. reflexivity. Qed.

Lemma get_input_cancel (Title Message : string) v us :
  get_input_from_tk_window Title Message
    {| input_value := v; user := ClickCancel :: us |}
  = Run (TkWindow Title Message :: cancel_events)
        {| input_value := v; user := us |} (Raise SystemExit).
Proof. reflexivity. Qed.

Lemma get_input_empty (Title Message : string) v us :
  get_input_from_tk_window Title Message
    {| input_value := v; user := ClickSubmit "" :: us |}
  = Run (TkWindow Title Message :: no_value_events ++ cancel_events)
        {| input_value := v; user := us |} (Raise SystemExit).
Proof. reflexivity. Qed.

Lemma get_input_blocks (Title Message : string) v :
  get_input_from_tk_window Title Message {| input_value := v; user := [] |}
  = Run [TkWindow Title Message] {| input_value := v; user := [] |} Blocks.
Proof. reflexivity. Qed.

(** When the user gives up, the dialog ends in cancel_click and
    SystemExit leaves it. *)
Lemma get_input_gives_up (Title Message : string) (a : user_action) w rest :
  user w = a :: rest -> gives_up a = true ->
  exists pre,
    get_input_from_tk_window Title Message w
    = Run (pre ++ cancel_events)
          {| input_value := input_value w; user := rest |} (Raise SystemExit)
    /\ Forall (fun e => is_dialog e = true) pre.
Proof.
  intros Hu Hg. destruct w as [v us]. simpl in Hu. subst us.
  destruct a as [text| |]; simpl in Hg; try discriminate.
  - apply String.eqb_eq in Hg. subst text.
    exists (TkWindow Title Message :: no_value_events). split.
    + apply get_input_empty.
    + repeat constructor.
  - exists [TkWindow Title Message]. split.
    + apply get_input_cancel.
    + repeat constructor.
Qed.

(** A dialog produces dialog events only: no keystroke, no message box. *)
Lemma get_input_events (Title Message : string) w :
  Forall (fun e => is_dialog e = true)
         (trace (get_input_from_tk_window Title Message w)).
Proof.
  destruct w as [v [|a us]].
  - rewrite get_input_blocks. repeat constructor.
  - destruct a as [text| |].
    + destruct text as [|c text].
      * rewrite get_input_empty. repeat constructor.
      * rewrite get_input_submit by discriminate. repeat constructor.
    + rewrite get_input_cancel. repeat constructor.
    + rewrite get_input_close. repeat constructor.
Qed.

Lemma count_dialog p (tr : list event) :
  (forall e, is_dialog e = true -> p e = false) ->
  Forall (fun e => is_dialog e = true) tr -> count p tr = 0%nat.
Proof.
  intros Hp H. unfold count. induction H as [|e tr He _ IH]; simpl.
  - reflexivity.
  - rewrite (Hp e He). exact IH.
Qed.

Lemma dialog_not_keystroke e : is_dialog e = true -> is_keystroke e = false.
Proof. destruct e; intros H; try reflexivity; discriminate H. Qed.

Lemma dialog_not_showinfo e : is_dialog e = true -> is_showinfo e = false.
Proof. destruct e; intros H; try reflexivity; discriminate H. Qed.

Lemma countdown_of_dialog (tr rest : list event) :
  Forall (fun e => is_dialog e = true) tr ->
  countdown_of (tr ++ rest) = countdown_of rest.
Proof.
  intros H. induction H as [|e tr He _ IH]; simpl; [reflexivity|].
  destruct e; simpl in He; try discriminate; exact IH.
Qed.

Lemma after_countdown_dialog (tr rest : list event) :
  Forall (fun e => is_dialog e = true) tr ->
  after_countdown (tr ++ rest) = after_countdown rest.
Proof.
  intros H. induction H as [|e tr He _ IH]; simpl; [reflexivity|].
  destruct e; simpl in He; try discriminate; exact IH.
Qed.

(** ** line_repeater, run *)

Section Prompted.

  (** Both prompts return: the first a value [line] (a str, or None when
      the window was closed), the second the str [count]. *)
  Variables (w0 w1 w2 : world) (tr1 tr2 : list event).
  Variables (line : pyval) (count : string).
  Hypothesis Hline :
    get_input_from_tk_window line_title line_message w0
    = Run tr1 w1 (Ok line).
  Hypothesis Hcount :
    get_input_from_tk_window line_title count_message w1
    = Run tr2 w2 (Ok (PyStr count)).

Lemma prompt_traces_dialog :
  Forall (fun e => is_dialog e = true) tr1 /\
  Forall (fun e => is_dialog e = true) tr2.
Proof.
  split.
  - replace tr1
      with (trace (get_input_from_tk_window line_title line_message w0))
      by (rewrite Hline; reflexivity).
    apply get_input_events.
  - replace tr2
      with (trace (get_input_from_tk_window line_title count_message w1))
      by (rewrite Hcount; reflexivity).
    apply get_input_events.
Qed.

Lemma line_repeater_prompted (c : Z) :
  0 <= c -> c <= 4294967 ->
  line_repeater c w0
  = match py_int count with
    | Some n =>
        let rl := repeat_line line n (1 # 2) "shift+enter" w2 in
        Run (tr1 ++ tr2 ++ acknowledgment count c :: Sleep (inject_Z c)
                 :: trace rl)
            (final rl) (outcome rl)
    | None =>
        Run (tr1 ++ tr2 ++ [acknowledgment count c; Sleep (inject_Z c)])
            w2 (Raise (ValueError_int count))
    end.
Proof.
  intros Hc Hs. unfold line_repeater.
  fold line_title line_message count_message.
  unfold bind. rewrite Hline. cbn [trace final outcome].
  rewrite Hcount. cbn [trace final outcome str_add ret emit].
  rewrite (format_int_small c w2) by lia. cbn [trace final outcome].
  rewrite (time_sleep_ok _ w2 (inject_Z_nonneg c Hc)
             (inject_Z_le c 4294967 Hs)).
  cbn [trace final outcome]. unfold int.
  destruct (py_int count) as [n|];
    cbn [ret raise trace final outcome app]; reflexivity.
Qed.

(** The countdown is refused: the run stops after the acknowledgment. *)
Lemma line_repeater_refused_wait (c : Z) (e : exn) :
  format_int c w2 = Run [] w2 (Ok (str_of_int c)) ->
  time_sleep (inject_Z c) w2 = Run [] w2 (Raise e) ->
  line_repeater c w0
  = Run (tr1 ++ tr2 ++ [acknowledgment count c]) w2 (Raise e).
Proof.
  intros Hf He. unfold line_repeater.
  fold line_title line_message count_message.
  apply (bind_ok_eq _ _ _ _ _ _ _ _ _ Hline).
  apply (bind_ok_eq _ _ _ _ _ _ _ _ _ Hcount).
  unfold bind. cbn [str_add ret trace final outcome].
  rewrite Hf. cbn [emit trace final outcome].
  rewrite He. reflexivity.
Qed.

(** The countdown has too many digits for the f-string: the run stops
    before the acknowledgment. *)
Lemma line_repeater_format_fails (c : Z) :
  format_int c w2 = Run [] w2 (Raise ValueError_format) ->
  line_repeater c w0 = Run (tr1 ++ tr2 ++ []) w2 (Raise ValueError_format).
Proof.
  intros Hf. unfold line_repeater.
  fold line_title line_message count_message.
  apply (bind_ok_eq _ _ _ _ _ _ _ _ _ Hline).
  apply (bind_ok_eq _ _ _ _ _ _ _ _ _ Hcount).
  unfold bind. cbn [str_add ret trace final outcome].
  rewrite Hf. reflexivity.
Qed.

Lemma line_repeater_refused (c : Z) :
  sleep_accepts (inject_Z c) = false ->
  exists tail e,
    line_repeater c w0 = Run (tr1 ++ tr2 ++ tail) w2 (Raise e) /\
    (tail = [] \/ tail = [acknowledgment count c]).
Proof.
  intros Hno.
  assert (Hf : format_int c w2 = Run [] w2 (Ok (str_of_int c)) \/
               format_int c w2 = Run [] w2 (Raise ValueError_format)).
  { unfold format_int.
    destruct (Z.abs c <? 10 ^ Z.of_N int_max_str_digits); auto. }
  destruct Hf as [Hf|Hf].
  - destruct (time_sleep_refuses _ Hno) as [e He].
    exists [acknowledgment count c], e. split; [|right; reflexivity].
    apply (line_repeater_refused_wait c e Hf (He w2)).
  - exists [], ValueError_format. split; [|left; reflexivity].
    apply (line_repeater_format_fails c Hf).
Qed.

Lemma countdown_prompted (c : Z) :
  0 <= c -> c <= 4294967 ->
  countdown_of (trace (line_repeater c w0)) = Some (inject_Z c).
Proof.
  intros Hc Hs. rewrite (line_repeater_prompted c Hc Hs).
  destruct prompt_traces_dialog as [H1 H2].
  destruct (py_int count) as [n|]; cbn [trace];
    rewrite (countdown_of_dialog _ _ H1), (countdown_of_dialog _ _ H2);
    reflexivity.
Qed.

(** The sleeps after the countdown are those of the one call
    repeat_line(line, int(times), delay=0.5, key="shift+enter"). *)
Lemma iteration_delays_prompted (c : Z) :
  iteration_delays (trace (line_repeater c w0))
  = if (0 <=? c) && (c <=? 4294967)
    then match py_int count with
         | Some n => sleeps (trace (repeat_line line n (1 # 2) "shift+enter" w2))
         | None => []
         end
    else [].
Proof.
  destruct prompt_traces_dialog as [H1 H2]. unfold iteration_delays.
  destruct ((0 <=? c) && (c <=? 4294967)) eqn:Hc.
  - apply andb_true_iff in Hc. destruct Hc as [Hc Hs].
    apply Z.leb_le in Hc, Hs.
    rewrite (line_repeater_prompted c Hc Hs).
    destruct (py_int count) as [n|]; cbn [trace];
      rewrite (after_countdown_dialog _ _ H1), (after_countdown_dialog _ _ H2);
      reflexivity.
  - rewrite <- sleep_accepts_inject_Z in Hc.
    destruct (line_repeater_refused c Hc) as (tail & e & -> & Htail).
    cbn [trace].
    rewrite (after_countdown_dialog _ _ H1), (after_countdown_dialog _ _ H2).
    destruct Htail as [->| ->]; reflexivity.
Qed.

End Prompted.

Lemma sleeps_repeat_line (line : string) (n : Z) (d : Q) (key : string) w :
  (0 <= d)%Q -> (d <= sleep_sure)%Q ->
  sleeps (trace (repeat_line (PyStr line) n d key w)) = repeat d (Z.to_nat n).
Proof.
  intros Hd Hs. rewrite (repeat_line_run line n d key w Hd Hs). cbn [trace].
  rewrite sleeps_iterations.
  replace (sleeps (iteration line d key)) with [d].
  - apply concat_repeat_singleton.
  - unfold iteration, submit_events.
    destruct (String.eqb key "enter"); [reflexivity|].
    destruct (String.eqb key "shift+enter"); reflexivity.
Qed.

(** ** Two concrete runs *)

Lemma hello3_line :
  get_input_from_tk_window line_title line_message hello3
  = Run hello3_tr1 hello3_w1 (Ok (PyStr "hello")).
Proof. reflexivity. Qed.

Lemma hello3_count :
  get_input_from_tk_window line_title count_message hello3_w1
  = Run hello3_tr2 hello3_w2 (Ok (PyStr "3")).
Proof. reflexivity. Qed.

Lemma helloabc_line :
  get_input_from_tk_window line_title line_message helloabc
  = Run hello3_tr1 helloabc_w1 (Ok (PyStr "hello")).
Proof. reflexivity. Qed.

Lemma helloabc_count :
  get_input_from_tk_window line_title count_message helloabc_w1
  = Run helloabc_tr2 helloabc_w2 (Ok (PyStr "abc")).
Proof. reflexivity. Qed.

Lemma py_int_3 : py_int "3" = Some 3.
Proof. reflexivity. Qed.

Lemma py_int_abc : py_int "abc" = None.
Proof. reflexivity. Qed.

(** int() on a few literals: white space and underscores, signs, leading
    zeros, and what it refuses. *)
Example py_int_literals :
  (py_int " -1_000 ", py_int "007", py_int "+5", py_int "1__0", py_int "_1",
   py_int "1_", py_int "+ 1", py_int "", py_int "3.5", py_int "0x10")
  = (Some (-1000), Some 7, Some 5, None, None, None, None, None, None, None).
Proof. reflexivity. Qed.

(** Closing the second dialog returns the global as the first dialog left
    it: the line is taken for the count. *)
Example close_count_dialog :
  outcome (line_repeater 7 (initial [ClickSubmit "a"; CloseWindow]))
  = Raise (ValueError_int "a").
Proof. reflexivity. Qed.

(** Closing the first dialog leaves None for the line, which typewrite
    cannot iterate over; with the count "0" nothing is typed at all. *)
Example close_line_dialog :
  outcome (line_repeater 7 (initial [CloseWindow; ClickSubmit "1"]))
  = Raise TypeError_iter /\
  outcome (line_repeater 7 (initial [CloseWindow; ClickSubmit "0"])) = Ok tt.
Proof. split; reflexivity. Qed.

(** ** Properties of the dialog and of line_repeater *)

(** C8. cancel_click destroys the two buttons and the field, sleeps 2
    seconds, and then, in this order: shows "Exiting Application...",
    sleeps 2 seconds, destroys the root window, and exits the process;
    clicking Cancel in a dialog runs exactly that, and SystemExit leaves
    the dialog uncaught. *)
Theorem cancel_click_order
  (Title Message : string) (v : pyval) (rest : list user_action) (w : world) :
  let before := [WidgetDestroy b1; WidgetDestroy b2; WidgetDestroy res;
                 Sleep 2] in
  let exiting := [LabelConfig "Exiting Application..."; RootUpdate; Sleep 2;
                  RootDestroy] in
  cancel_click w = Run (before ++ exiting) w (Raise SystemExit) /\
  get_input_from_tk_window Title Message
    {| input_value := v; user := ClickCancel :: rest |}
  = Run (TkWindow Title Message :: before ++ exiting)
        {| input_value := v; user := rest |} (Raise SystemExit) /\
  Forall (fun e => e <> LabelConfig "Exiting Application..." /\
                   e <> RootDestroy) (TkWindow Title Message :: before).
Proof.
  cbv zeta. split; [reflexivity|]. split; [reflexivity|].
  repeat constructor; discriminate.
Qed.

(** C2. When the user cancels a prompt or submits it empty, be it the
    first prompt or the second one after the first has returned,
    line_repeater ends with SystemExit as soon as cancel_click has run:
    the trace ends with the events of cancel_click, and it holds no
    keystroke, no submit action and no acknowledgment. *)
Theorem line_repeater_gives_up
  (c : Z) (w0 : world) (a : user_action) (rest : list user_action) :
  gives_up a = true ->
  (user w0 = a :: rest \/
   exists tr1 w1 v,
     get_input_from_tk_window line_title line_message w0
     = Run tr1 w1 (Ok v) /\ user w1 = a :: rest) ->
  let r := line_repeater c w0 in
  outcome r = Raise SystemExit /\
  count is_keystroke (trace r) = 0%nat /\
  count is_showinfo (trace r) = 0%nat /\
  (exists pre, trace r = (pre ++ cancel_events)%list) /\
  user (final r) = rest.
Proof.
  intros Hg Hcase r. subst r.
  assert (Hcancel : Forall (fun e => is_dialog e = true) cancel_events)
    by (repeat constructor).
  destruct Hcase as [Hu | (tr1 & w1 & v & Hline & Hu)].
  - destruct (get_input_gives_up line_title line_message a w0 rest Hu Hg)
      as (pre & Hrun & Hpre).
    unfold line_repeater. fold line_title line_message count_message.
    rewrite (bind_raise _ _ _ _ _ _ Hrun). cbn [trace final outcome user].
    assert (Hall : Forall (fun e => is_dialog e = true) (pre ++ cancel_events))
      by (apply Forall_app; split; assumption).
    split; [reflexivity|]. split; [|split; [|split]].
    + apply (count_dialog _ _ dialog_not_keystroke Hall).
    + apply (count_dialog _ _ dialog_not_showinfo Hall).
    + exists pre. reflexivity.
    + reflexivity.
  - destruct (get_input_gives_up line_title count_message a w1 rest Hu Hg)
      as (pre & Hrun & Hpre).
    assert (H1 : Forall (fun e => is_dialog e = true) tr1).
    { replace tr1
        with (trace (get_input_from_tk_window line_title line_message w0))
        by (rewrite Hline; reflexivity).
      apply get_input_events. }
    assert (Heq : line_repeater c w0
                  = Run (tr1 ++ pre ++ cancel_events)
                        {| input_value := input_value w1; user := rest |}
                        (Raise SystemExit)).
    { unfold line_repeater. fold line_title line_message count_message.
      unfold bind at 1. rewrite Hline. cbn [trace final outcome].
      rewrite (bind_raise _ _ _ _ _ _ Hrun). reflexivity. }
    rewrite Heq. cbn [trace final outcome user].
    assert (Hall : Forall (fun e => is_dialog e = true)
                          (tr1 ++ pre ++ cancel_events))
      by (repeat (apply Forall_app; split); assumption).
    split; [reflexivity|]. split; [|split; [|split]].
    + apply (count_dialog _ _ dialog_not_keystroke Hall).
    + apply (count_dialog _ _ dialog_not_showinfo Hall).
    + exists (tr1 ++ pre)%list. rewrite app_assoc. reflexivity.
    + reflexivity.
Qed.

Lemma line_repeater_gives_up_witness :
  let r := line_repeater 7 (initial [ClickSubmit "hello"; ClickSubmit ""]) in
  outcome r = Raise SystemExit /\
  count is_keystroke (trace r) = 0%nat /\
  count is_showinfo (trace r) = 0%nat /\
  (exists pre, trace r = (pre ++ cancel_events)%list) /\
  user (final r) = [].
Proof.
  apply (line_repeater_gives_up 7
           (initial [ClickSubmit "hello"; ClickSubmit ""])
           (ClickSubmit "") []).
  - reflexivity.
  - right. exists hello3_tr1.
    exists {| input_value := PyStr "hello"; user := [ClickSubmit ""] |}.
    exists (PyStr "hello"). split; reflexivity.
Defined.

(** C3. When the first prompt returns the str [line] and the second the
    str [times], line_repeater c, for a countdown c in the range where
    time.sleep is sure to sleep (0 <= c <= 4294967 seconds; the script
    passes 7 and the default is 10), runs, after the two dialogs: the
    acknowledgment that embeds [times] as it is, the sleep of c seconds,
    the conversion int(times), and the call repeat_line(line, int(times),
    0.5, "shift+enter"), whose events, final state and outcome are those
    of the whole run; when the conversion fails the run stops there. *)
Theorem line_repeater_sequence
  (w0 w1 w2 : world) (tr1 tr2 : list event) (line times : string) (c : Z) :
  get_input_from_tk_window line_title line_message w0
  = Run tr1 w1 (Ok (PyStr line)) ->
  get_input_from_tk_window line_title count_message w1
  = Run tr2 w2 (Ok (PyStr times)) ->
  0 <= c <= 4294967 ->
  line_repeater c w0
  = match py_int times with
    | Some n =>
        let rl := repeat_line (PyStr line) n (1 # 2) "shift+enter" w2 in
        Run (tr1 ++ tr2 ++ ShowInfo "Line Repeator" (ack_message times c)
                 :: Sleep (inject_Z c) :: trace rl)
            (final rl) (outcome rl)
    | None =>
        Run (tr1 ++ tr2 ++ [ShowInfo "Line Repeator" (ack_message times c);
                            Sleep (inject_Z c)])
            w2 (Raise (ValueError_int times))
    end.
Proof.
  intros Hline Hcount [Hc Hs].
  exact (line_repeater_prompted w0 w1 w2 tr1 tr2 (PyStr line) times
           Hline Hcount c Hc Hs).
Qed.

Lemma line_repeater_sequence_witness :
  line_repeater 7 hello3
  = Run (hello3_tr1 ++ hello3_tr2 ++
         [ShowInfo "Line Repeator"
            "The line will be repeated 3 times. Please switch to the target application and click on the text box to start the process in 7 Seconds.";
          Sleep 7;
          Typewrite "hello" (1 # 10); Hotkey ["shift"; "enter"]; Sleep (1 # 2);
          Typewrite "hello" (1 # 10); Hotkey ["shift"; "enter"]; Sleep (1 # 2);
          Typewrite "hello" (1 # 10); Hotkey ["shift"; "enter"]; Sleep (1 # 2)])
        hello3_w2 (Ok tt).
Proof.
  apply (line_repeater_sequence hello3 hello3_w1 hello3_w2
           hello3_tr1 hello3_tr2 "hello" "3" 7).
  - reflexivity.
  - reflexivity.
  - lia.
Defined.

(** C5. When the count prompt returns a str that int() refuses, such as
    "abc", line_repeater c, for a countdown c in the range where
    time.sleep is sure to sleep (0 <= c <= 4294967 seconds), shows the
    acknowledgment, sleeps the countdown and then fails with the uncaught
    ValueError of int(); the run holds no keystroke and no submit
    action. *)
Theorem line_repeater_non_numeric
  (w0 w1 w2 : world) (tr1 tr2 : list event) (line : pyval) (times : string)
  (c : Z) :
  get_input_from_tk_window line_title line_message w0
  = Run tr1 w1 (Ok line) ->
  get_input_from_tk_window line_title count_message w1
  = Run tr2 w2 (Ok (PyStr times)) ->
  0 <= c <= 4294967 ->
  py_int times = None ->
  line_repeater c w0
  = Run (tr1 ++ tr2 ++ [ShowInfo "Line Repeator" (ack_message times c);
                        Sleep (inject_Z c)])
        w2 (Raise (ValueError_int times)) /\
  count is_keystroke (trace (line_repeater c w0)) = 0%nat.
Proof.
  intros Hline Hcount [Hc Hs] Hint.
  pose proof (line_repeater_prompted w0 w1 w2 tr1 tr2 line times
                Hline Hcount c Hc Hs) as Hrun.
  rewrite Hint in Hrun. rewrite Hrun. split; [reflexivity|].
  destruct (prompt_traces_dialog w0 w1 w2 tr1 tr2 line times Hline Hcount)
    as [H1 H2].
  cbn [trace]. rewrite !count_app.
  rewrite (count_dialog _ _ dialog_not_keystroke H1).
  rewrite (count_dialog _ _ dialog_not_keystroke H2).
  reflexivity.
Qed.

Lemma line_repeater_non_numeric_witness :
  line_repeater 7 helloabc
  = Run (hello3_tr1 ++ helloabc_tr2 ++
         [ShowInfo "Line Repeator" (ack_message "abc" 7); Sleep 7])
        helloabc_w2 (Raise (ValueError_int "abc")) /\
  count is_keystroke (trace (line_repeater 7 helloabc)) = 0%nat.
Proof.
  apply (line_repeater_non_numeric helloabc helloabc_w1 helloabc_w2
           hello3_tr1 helloabc_tr2 (PyStr "hello") "abc" 7).
  - reflexivity.
  - reflexivity.
  - lia.
  - reflexivity.
Defined.

(** C6, as stated, fails: called without an argument, line_repeater
    counts down 10 seconds, not 7. *)
Lemma default_wait_is_not_7 :
  countdown_of (trace (call_line_repeater None hello3)) = Some (inject_Z 10) /\
  countdown_of (trace (call_line_repeater None hello3)) <> Some (inject_Z 7).
Proof.
  split; [reflexivity|].
  intros H. vm_compute in H. discriminate H.
Qed.

(** C6, amended. Called without an argument, line_repeater is
    line_repeater(10): whenever both prompts return a str the countdown
    is 10 seconds.  The 7 seconds are the argument the script's entry
    point passes. *)
Theorem line_repeater_default_wait_10
  (w0 w1 w2 : world) (tr1 tr2 : list event) (line times : string) :
  get_input_from_tk_window line_title line_message w0
  = Run tr1 w1 (Ok (PyStr line)) ->
  get_input_from_tk_window line_title count_message w1
  = Run tr2 w2 (Ok (PyStr times)) ->
  call_line_repeater None w0 = line_repeater 10 w0 /\
  countdown_of (trace (call_line_repeater None w0)) = Some (inject_Z 10) /\
  countdown_of (trace (main w0)) = Some (inject_Z 7).
Proof.
  intros Hline Hcount. split; [reflexivity|]. split.
  - apply (countdown_prompted w0 w1 w2 tr1 tr2 (PyStr line) times
             Hline Hcount 10); lia.
  - apply (countdown_prompted w0 w1 w2 tr1 tr2 (PyStr line) times
             Hline Hcount 7); lia.
Qed.

Lemma line_repeater_default_wait_10_witness :
  call_line_repeater None hello3 = line_repeater 10 hello3 /\
  countdown_of (trace (call_line_repeater None hello3)) = Some (inject_Z 10) /\
  countdown_of (trace (main hello3)) = Some (inject_Z 7).
Proof.
  apply (line_repeater_default_wait_10 hello3 hello3_w1 hello3_w2
           hello3_tr1 hello3_tr2 "hello" "3").
  - reflexivity.
  - reflexivity.
Defined.

(** C7, as stated, fails for the delay between iterations: with the
    answers "hello" and "3", every iteration sleeps 0.5 seconds, and no
    argument of line_repeater makes the iterations sleep 1 second. *)
Lemma loop_delay_not_overridable :
  iteration_delays (trace (call_line_repeater (Some 7) hello3))
  = [1 # 2; 1 # 2; 1 # 2] /\
  ~ (exists arg : option Z,
       iteration_delays (trace (call_line_repeater arg hello3))
       = [1%Q; 1%Q; 1%Q]).
Proof.
  split; [reflexivity|].
  intros [arg H].
  assert (Hc : forall c, iteration_delays (trace (line_repeater c hello3))
                         <> [1%Q; 1%Q; 1%Q]).
  { intros c.
    rewrite (iteration_delays_prompted hello3 hello3_w1 hello3_w2
               hello3_tr1 hello3_tr2 (PyStr "hello") "3"
               hello3_line hello3_count c).
    destruct ((0 <=? c) && (c <=? 4294967)); [|discriminate].
    rewrite py_int_3. vm_compute. discriminate. }
  destruct arg as [c|]; exact (Hc _ H).
Qed.

(** C7, amended. The countdown is an input of line_repeater: an
    invocation with an argument c in the range where time.sleep is sure to
    sleep (0 <= c <= 4294967 seconds) counts down c seconds.  The delay
    between iterations is an input of repeat_line, which sleeps the delay
    it is given (0 <= d <= 4294967 seconds) after every iteration, and 0
    seconds when the delay is left out; line_repeater gives it the fixed
    0.5 seconds, whatever its own argument. *)
Theorem delays_configuration
  (w0 w1 w2 : world) (tr1 tr2 : list event) (line times : string)
  (c n : Z) (d : Q) (key : string) (w : world) :
  get_input_from_tk_window line_title line_message w0
  = Run tr1 w1 (Ok (PyStr line)) ->
  get_input_from_tk_window line_title count_message w1
  = Run tr2 w2 (Ok (PyStr times)) ->
  py_int times = Some n ->
  0 <= c <= 4294967 -> (0 <= d)%Q -> (d <= sleep_sure)%Q ->
  countdown_of (trace (call_line_repeater (Some c) w0)) = Some (inject_Z c) /\
  iteration_delays (trace (call_line_repeater (Some c) w0))
  = repeat (1 # 2) (Z.to_nat n) /\
  sleeps (trace (call_repeat_line (PyStr line) n (Some d) (Some key) w))
  = repeat d (Z.to_nat n) /\
  sleeps (trace (call_repeat_line (PyStr line) n None (Some key) w))
  = repeat 0%Q (Z.to_nat n).
Proof.
  intros Hline Hcount Hint [Hc Hs] Hd Hds.
  cbn [call_line_repeater call_repeat_line].
  split; [|split; [|split]].
  - apply (countdown_prompted w0 w1 w2 tr1 tr2 (PyStr line) times
             Hline Hcount c Hc Hs).
  - rewrite (iteration_delays_prompted w0 w1 w2 tr1 tr2 (PyStr line) times
               Hline Hcount c).
    replace ((0 <=? c) && (c <=? 4294967)) with true
      by (symmetry; apply andb_true_iff; split; apply Z.leb_le; lia).
    rewrite Hint. apply sleeps_repeat_line; unfold Qle; simpl; lia.
  - apply sleeps_repeat_line; assumption.
  - apply sleeps_repeat_line; unfold Qle; simpl; lia.
Qed.

Lemma delays_configuration_witness :
  countdown_of (trace (call_line_repeater (Some 3) hello3))
  = Some (inject_Z 3) /\
  iteration_delays (trace (call_line_repeater (Some 3) hello3))
  = repeat (1 # 2) (Z.to_nat 3) /\
  sleeps (trace (call_repeat_line (PyStr "hello") 3 (Some 2%Q)
                   (Some "enter") (initial [])))
  = repeat 2%Q (Z.to_nat 3) /\
  sleeps (trace (call_repeat_line (PyStr "hello") 3 None (Some "enter")
                   (initial [])))
  = repeat 0%Q (Z.to_nat 3).
Proof.
  apply (delays_configuration hello3 hello3_w1 hello3_w2
           hello3_tr1 hello3_tr2 "hello" "3" 3 3 2 "enter" (initial [])).
  - reflexivity.
  - reflexivity.
  - reflexivity.
  - lia.
  - unfold Qle; simpl; lia.
  - unfold Qle; simpl; lia.
Defined.

(** ** More on the dialog *)

Lemma bind_blocks {A B} (m : M A) (f : A -> M B) w t w' :
  m w = Run t w' Blocks -> bind m f w = Run t w' Blocks.
Proof. intros H. unfold bind. rewrite H. reflexivity. Qed.

Lemma bind_assoc {A B C} (m : M A) (f : A -> M B) (g : B -> M C) w :
  bind (bind m f) g w = bind m (fun a => bind (f a) g) w.
Proof.
  unfold bind. destruct (m w) as [t1 w1 [a| e|]]; cbn [trace final outcome].
  - destruct (f a w1) as [t2 w2 [b| e|]]; cbn [trace final outcome].
    + rewrite app_assoc. reflexivity.
    + reflexivity.
    + reflexivity.
  - reflexivity.
  - reflexivity.
Qed.

(** The five ways a dialog can go. *)
Lemma get_input_cases (Title Message : string) (w : world) :
  let r := get_input_from_tk_window Title Message w in
  (user w = [] /\ r = Run [TkWindow Title Message] w Blocks) \/
  (exists rest, user w = ClickCancel :: rest /\
     r = Run (TkWindow Title Message :: cancel_events)
             {| input_value := input_value w; user := rest |}
             (Raise SystemExit)) \/
  (exists rest, user w = ClickSubmit "" :: rest /\
     r = Run (TkWindow Title Message :: no_value_events ++ cancel_events)
             {| input_value := input_value w; user := rest |}
             (Raise SystemExit)) \/
  (exists text rest, user w = ClickSubmit text :: rest /\ text <> "" /\
     r = Run (TkWindow Title Message :: submitted_events text)
             {| input_value := PyStr text; user := rest |}
             (Ok (PyStr text))) \/
  (exists rest, user w = CloseWindow :: rest /\
     r = Run [TkWindow Title Message; RootDestroy]
             {| input_value := input_value w; user := rest |}
             (Ok (input_value w))).
Proof.
  destruct w as [v [|a us]]; cbn [user input_value].
  - left. split; [reflexivity|apply get_input_blocks].
  - destruct a as [text| |].
    + destruct text as [|ch text].
      * right. right. left. exists us. split; [reflexivity|].
        apply get_input_empty.
      * right. right. right. left. exists (String ch text), us.
        split; [reflexivity|]. split; [discriminate|].
        apply get_input_submit. discriminate.
    + right. left. exists us. split; [reflexivity|]. apply get_input_cancel.
    + right. right. right. right. exists us. split; [reflexivity|].
      apply get_input_close.
Qed.

(** X1. Whenever a dialog returns a value, that value is what the global
    input_value holds afterwards, exactly one decision of the user has
    been consumed, and either the user submitted a non-empty text, which
    is returned unchanged, or the user closed the window, and the value is
    what the global held before the dialog. *)
Theorem get_input_returns
  (Title Message : string) (w : world) (v : pyval) :
  let r := get_input_from_tk_window Title Message w in
  outcome r = Ok v ->
  input_value (final r) = v /\
  ((exists text rest,
      user w = ClickSubmit text :: rest /\ text <> "" /\
      v = PyStr text /\ user (final r) = rest) \/
   (exists rest,
      user w = CloseWindow :: rest /\ v = input_value w /\
      user (final r) = rest)).
Proof.
  intros r Hok. subst r.
  destruct (get_input_cases Title Message w)
    as [[_ H]|[(rest & _ & H)|[(rest & _ & H)|
        [(text & rest & Hu & Ht & H)|(rest & Hu & H)]]]];
    rewrite H in Hok |- *; cbn [outcome final input_value user] in *;
    try discriminate Hok.
  - injection Hok as <-. split; [reflexivity|].
    left. exists text, rest. repeat split; assumption.
  - injection Hok as <-. split; [reflexivity|].
    right. exists rest. repeat split; assumption.
Qed.

Lemma get_input_returns_witness :
  let r := get_input_from_tk_window line_title line_message
             (initial [ClickSubmit " hello "; ClickCancel]) in
  input_value (final r) = PyStr " hello " /\
  ((exists text rest,
      user (initial [ClickSubmit " hello "; ClickCancel])
      = ClickSubmit text :: rest /\ text <> "" /\
      PyStr " hello " = PyStr text /\ user (final r) = rest) \/
   (exists rest,
      user (initial [ClickSubmit " hello "; ClickCancel])
      = CloseWindow :: rest /\
      PyStr " hello "
      = input_value (initial [ClickSubmit " hello "; ClickCancel]) /\
      user (final r) = rest)).
Proof.
  apply (get_input_returns line_title line_message
           (initial [ClickSubmit " hello "; ClickCancel]) (PyStr " hello ")).
  reflexivity.
Defined.

(** X2. When the user gives up on a dialog (Cancel, or Submit on an empty
    field), the dialog ends with SystemExit, the global input_value is left
    as it was, the process sleeps twice 2 seconds on the way out, the last
    thing it does is destroy the root window, and no "Submitted value"
    status is ever shown. *)
Theorem get_input_gives_up_exit
  (Title Message : string) (w : world) (a : user_action)
  (rest : list user_action) :
  user w = a :: rest -> gives_up a = true ->
  let r := get_input_from_tk_window Title Message w in
  outcome r = Raise SystemExit /\
  final r = {| input_value := input_value w; user := rest |} /\
  sleeps (trace r) = [2%Q; 2%Q] /\
  (exists pre, trace r = (pre ++ [RootDestroy])%list) /\
  (forall text, ~ In (LabelConfig ("Submitted value: " ++ text)) (trace r)).
Proof.
  intros Hu Hg r. subst r. destruct w as [v us]. cbn [user] in Hu. subst us.
  destruct a as [text| |]; cbn [gives_up] in Hg; try discriminate Hg.
  - apply String.eqb_eq in Hg. subst text. rewrite get_input_empty.
    cbn [trace final outcome input_value].
    split; [reflexivity|]. split; [reflexivity|]. split; [reflexivity|].
    split.
    + exists (TkWindow Title Message :: no_value_events
              ++ removelast cancel_events)%list. reflexivity.
    + intros text Hin. simpl in Hin.
      repeat (destruct Hin as [Hin|Hin]; [discriminate Hin|]). exact Hin.
  - rewrite get_input_cancel. cbn [trace final outcome input_value].
    split; [reflexivity|]. split; [reflexivity|]. split; [reflexivity|].
    split.
    + exists (TkWindow Title Message :: removelast cancel_events)%list.
      reflexivity.
    + intros text Hin. simpl in Hin.
      repeat (destruct Hin as [Hin|Hin]; [discriminate Hin|]). exact Hin.
Qed.

Lemma get_input_gives_up_exit_witness :
  let r := get_input_from_tk_window line_title count_message
             {| input_value := PyStr "hello"; user := [ClickSubmit ""] |} in
  outcome r = Raise SystemExit /\
  final r = {| input_value := PyStr "hello"; user := [] |} /\
  sleeps (trace r) = [2%Q; 2%Q] /\
  (exists pre, trace r = (pre ++ [RootDestroy])%list) /\
  (forall text, ~ In (LabelConfig ("Submitted value: " ++ text)) (trace r)).
Proof.
  apply (get_input_gives_up_exit line_title count_message
           {| input_value := PyStr "hello"; user := [ClickSubmit ""] |}
           (ClickSubmit "") []).
  - reflexivity.
  - reflexivity.
Defined.

(** X3. A dialog never puts the empty string into the global input_value
    and never returns it: when the global is not the empty string before
    the dialog, it is not afterwards, and neither is a returned value. *)
Theorem get_input_never_empty
  (Title Message : string) (w : world) :
  input_value w <> PyStr "" ->
  let r := get_input_from_tk_window Title Message w in
  input_value (final r) <> PyStr "" /\
  (forall v, outcome r = Ok v -> v <> PyStr "").
Proof.
  intros Hw r. subst r.
  destruct (get_input_cases Title Message w)
    as [[_ H]|[(rest & _ & H)|[(rest & _ & H)|
        [(text & rest & Hu & Ht & H)|(rest & Hu & H)]]]];
    rewrite H; cbn [outcome final input_value user].
  - split; [exact Hw|]. intros v Hv. discriminate Hv.
  - split; [exact Hw|]. intros v Hv. discriminate Hv.
  - split; [exact Hw|]. intros v Hv. discriminate Hv.
  - split.
    + intros Heq. injection Heq as Heq. exact (Ht Heq).
    + intros v Hv. injection Hv as <-. intros Heq.
      injection Heq as Heq. exact (Ht Heq).
  - split; [exact Hw|]. intros v Hv. injection Hv as <-. exact Hw.
Qed.

Lemma get_input_never_empty_witness :
  let r := get_input_from_tk_window line_title line_message
             (initial [CloseWindow]) in
  input_value (final r) <> PyStr "" /\
  (forall v, outcome r = Ok v -> v <> PyStr "").
Proof.
  apply (get_input_never_empty line_title line_message (initial [CloseWindow])).
  discriminate.
Defined.

(** ** More on repeat_line *)

Lemma bind_ext {A B} (m : M A) (f g : A -> M B) w :
  (forall a w', f a w' = g a w') -> bind m f w = bind m g w.
Proof.
  intros H. unfold bind. destruct (m w) as [t1 w1 [a| e|]];
    cbn [trace final outcome]; [rewrite H|..]; reflexivity.
Qed.

Lemma bind_ret_l {B} (f : unit -> M B) w : bind (ret tt) f w = f tt w.
Proof. unfold bind, ret. cbn. destruct (f tt w); reflexivity. Qed.

Lemma for_each_app {A} (xs ys : list A) (body : A -> M unit) w :
  for_each (xs ++ ys) body w
  = bind (for_each xs body) (fun _ => for_each ys body) w.
Proof.
  revert w. induction xs as [|x xs IH]; intros w; cbn [for_each app].
  - rewrite bind_ret_l. reflexivity.
  - rewrite bind_assoc. apply bind_ext. intros _ w'. apply IH.
Qed.

(** A loop whose body ignores the loop variable depends on the number of
    items only. *)
Lemma for_each_length {A} (xs ys : list A) (body : A -> M unit) :
  (forall x y w, body x w = body y w) ->
  length xs = length ys ->
  forall w, for_each xs body w = for_each ys body w.
Proof.
  intros Hb. revert ys. induction xs as [|x xs IH]; intros [|y ys] Hlen w;
    try discriminate Hlen; [reflexivity|].
  cbn [for_each]. unfold bind. rewrite (Hb x y w).
  destruct (body y w) as [t1 w1 [[]| e|]]; cbn [trace final outcome];
    [|reflexivity..].
  rewrite (IH ys); [reflexivity|]. injection Hlen as Hlen. exact Hlen.
Qed.

Lemma repeat_line_none_run (times : Z) (delay : Q) (key : string) w :
  repeat_line PyNone times delay key w
  = Run [] w (if 1 <=? times then Raise TypeError_iter else Ok tt).
Proof.
  unfold repeat_line. destruct (Z.leb_spec 1 times) as [H|H].
  - destruct (range_pos times H) as (x & xs & ->). reflexivity.
  - rewrite range_nonpos by lia. reflexivity.
Qed.

Lemma in_iterations {A} (x : A) (tr : list A) (n : nat) :
  In x (concat (repeat tr n)) -> In x tr.
Proof.
  induction n as [|n IH]; simpl; [intros []|].
  intros H. apply in_app_or in H. destruct H as [H|H]; [exact H|exact (IH H)].
Qed.

Lemma submit_events_keystroke (key : string) e :
  In e (submit_events key) -> is_keystroke e = true.
Proof.
  unfold submit_events.
  destruct (String.eqb key "enter");
    [|destruct (String.eqb key "shift+enter")];
    cbn [In]; intros H; try (destruct H as [<-|[]]; reflexivity).
  destruct H.
Qed.

(** X4. With a count of at least 1 and a delay that time.sleep is sure
    to refuse, repeat_line does one round only, whatever the count: it
    types the line once, issues the submit action of its key, and then
    time.sleep raises ValueError for a negative delay down to -9223372036
    seconds, and OverflowError for a delay from 9223372037 seconds on in
    either direction; no sleep takes place and the state is left alone. *)
Theorem repeat_line_negative_delay_stops
  (line : string) (times : Z) (delay : Q) (key : string) (w : world) :
  1 <= times ->
  let r := repeat_line (PyStr line) times delay key w in
  let round := Typewrite line (1 # 10) :: submit_events key in
  ((-9223372036 <= delay)%Q -> (delay < 0)%Q ->
   r = Run round w (Raise ValueError_sleep)) /\
  ((sleep_overflow <= delay)%Q \/ (delay <= - sleep_overflow)%Q ->
   r = Run round w (Raise OverflowError_sleep)) /\
  count is_typewrite round = 1%nat /\
  sleeps round = [].
Proof.
  intros Ht r round. subst r round. split; [|split].
  - intros H0 H1.
    apply (repeat_line_refused_delay line times delay key w _ Ht
             (time_sleep_negative delay w H0 H1)).
  - intros H.
    apply (repeat_line_refused_delay line times delay key w _ Ht
             (time_sleep_overflows delay w H)).
  - unfold submit_events.
    destruct (String.eqb key "enter");
      [|destruct (String.eqb key "shift+enter")]; split; reflexivity.
Qed.

Lemma repeat_line_negative_delay_stops_witness :
  let r := repeat_line (PyStr "hello") 5 (-1 # 2) "enter" (initial []) in
  let round := Typewrite "hello" (1 # 10) :: submit_events "enter" in
  ((-9223372036 <= -1 # 2)%Q -> (-1 # 2 < 0)%Q ->
   r = Run round (initial []) (Raise ValueError_sleep)) /\
  ((sleep_overflow <= -1 # 2)%Q \/ (-1 # 2 <= - sleep_overflow)%Q ->
   r = Run round (initial []) (Raise OverflowError_sleep)) /\
  count is_typewrite round = 1%nat /\
  sleeps round = [].
Proof.
  apply (repeat_line_negative_delay_stops "hello" 5 (-1 # 2) "enter"
           (initial [])).
  lia.
Defined.

(** X5. When the line is None, repeat_line raises TypeError in typewrite
    before anything is typed if the count is at least 1, and returns
    normally without doing anything if the count is 0 or negative;
    neither the delay nor the key matters. *)
Theorem repeat_line_none
  (times : Z) (delay : Q) (key : string) (w : world) :
  repeat_line PyNone times delay key w
  = Run [] w (if 1 <=? times then Raise TypeError_iter else Ok tt).
Proof. apply repeat_line_none_run. Qed.

(** X6. Whatever its arguments, repeat_line leaves the state alone (the
    global input_value and the pending decisions of the user: it opens no
    dialog), and every event it produces is a keystroke (typewrite, press,
    hotkey) or a sleep of exactly [delay]. *)
Theorem repeat_line_frame
  (line : pyval) (times : Z) (delay : Q) (key : string) (w : world) :
  let r := repeat_line line times delay key w in
  final r = w /\
  (forall e, In e (trace r) -> is_keystroke e = true \/ e = Sleep delay).
Proof.
  intros r. subst r. destruct line as [|line].
  - rewrite repeat_line_none_run. cbn [trace final outcome].
    split; [reflexivity|]. intros e [].
  - destruct (sleep_accepts_cases delay) as [[Hd Hs]|Hno].
    + rewrite (repeat_line_run line times delay key w Hd Hs).
      cbn [trace final outcome]. split; [reflexivity|].
      intros e Hin. apply in_iterations in Hin. unfold iteration in Hin.
      destruct Hin as [<-|Hin]; [left; reflexivity|].
      apply in_app_or in Hin. destruct Hin as [Hin|[<-|[]]].
      * left. exact (submit_events_keystroke key e Hin).
      * right. reflexivity.
    + destruct (Z.leb_spec 1 times) as [Ht|Ht].
      * destruct (time_sleep_refuses delay Hno) as [e' He].
        rewrite (repeat_line_refused_delay line times delay key w e' Ht
                   (He w)).
        cbn [trace final outcome]. split; [reflexivity|].
        intros e [<-|Hin]; left;
          [reflexivity|exact (submit_events_keystroke key e Hin)].
      * unfold repeat_line. rewrite range_nonpos by lia.
        cbn [for_each ret trace final outcome].
        split; [reflexivity|]. intros e [].
Qed.

(** X7. Repeating m + n times is repeating m times and then n times, for
    counts m, n >= 0 and all lines, delays and keys, failures included:
    the run of repeat_line(line, m + n, delay, key) is the run of
    repeat_line(line, m, delay, key) followed by repeat_line(line, n,
    delay, key). *)
Theorem repeat_line_add
  (line : pyval) (m n : Z) (delay : Q) (key : string) (w : world) :
  0 <= m -> 0 <= n ->
  repeat_line line (m + n) delay key w
  = bind (repeat_line line m delay key)
         (fun _ => repeat_line line n delay key) w.
Proof.
  intros Hm Hn. unfold repeat_line.
  rewrite <- for_each_app. apply for_each_length.
  - intros x y w'. reflexivity.
  - rewrite length_app, !length_range. lia.
Qed.

Lemma repeat_line_add_witness :
  repeat_line (PyStr "hello") (2 + 1) (1 # 2) "shift+enter" (initial [])
  = bind (repeat_line (PyStr "hello") 2 (1 # 2) "shift+enter")
         (fun _ => repeat_line (PyStr "hello") 1 (1 # 2) "shift+enter")
         (initial []).
Proof.
  apply (repeat_line_add (PyStr "hello") 2 1 (1 # 2) "shift+enter"
           (initial [])); lia.
Defined.

(** ** int() reads back what str() writes *)

Lemma scan_uint (d : Decimal.uint) (acc : Z) (k : N) :
  scan_digits (NilEmpty.string_of_uint d) false acc k
  = Some (uint_value d acc,
          (k + N.of_nat (String.length (NilEmpty.string_of_uint d)))%N, "").
Proof.
  revert acc k. induction d; intros acc k;
    cbn [NilEmpty.string_of_uint uint_value String.length];
    [cbn [scan_digits]; repeat f_equal; lia|..];
    (cbn -[Z.mul Z.add N.of_nat N.succ N.add];
     match goal with
     | |- context [digit_of ?c] =>
         let v := eval vm_compute in (digit_of c) in
         change (digit_of c) with v
     end;
     cbv iota beta; rewrite IHd;
     match goal with
     | |- context [(k + N.of_nat (S ?n))%N] =>
         replace (k + N.of_nat (S n))%N with (N.succ k + N.of_nat n)%N by lia
     end; reflexivity).
Qed.

Lemma uint_value_pos (d : Decimal.uint) (p : positive) :
  uint_value d (Z.pos p) = Z.pos (Pos.of_uint_acc d p).
Proof.
  revert p. induction d; intros p; cbn [uint_value Pos.of_uint_acc];
    [reflexivity|..];
    rewrite <- IHd; f_equal; lia.
Qed.

Lemma uint_value_0 (d : Decimal.uint) :
  uint_value d 0 = Z.of_N (Pos.of_uint d).
Proof.
  induction d; cbn [uint_value Pos.of_uint]; try reflexivity;
    try (change (10 * 0 + 0) with 0; exact IHd);
    (match goal with
     | |- uint_value _ (10 * 0 + ?k) = _ =>
         change (10 * 0 + k) with k
     end; rewrite uint_value_pos; reflexivity).
Qed.

Lemma py_int_scanned (sign : Z) (s t : string) (v : Z) (k : N) :
  py_int t = int_finish sign (scan_digits s false 0 0) ->
  scan_digits s false 0 0 = Some (v, k, "") ->
  k <> 0%N -> (k <= int_max_str_digits)%N ->
  py_int t = Some (sign * v).
Proof.
  intros -> -> Hk0 Hk. unfold int_finish.
  apply N.eqb_neq in Hk0. rewrite Hk0.
  apply N.ltb_ge in Hk. rewrite Hk. reflexivity.
Qed.

Lemma py_int_of_uint (d : Decimal.uint) :
  d <> Decimal.Nil ->
  (N.of_nat (String.length (NilEmpty.string_of_uint d))
   <= int_max_str_digits)%N ->
  py_int (NilEmpty.string_of_uint d) = Some (1 * uint_value d 0) /\
  py_int (String "-" (NilEmpty.string_of_uint d))
  = Some (-1 * uint_value d 0).
Proof.
  intros Hd Hlen.
  pose proof (scan_uint d 0 0) as Hscan.
  assert (Hk : (0 + N.of_nat (String.length (NilEmpty.string_of_uint d)))%N
               <> 0%N)
    by (destruct d; [congruence|..]; cbn [NilEmpty.string_of_uint String.length]; lia).
  destruct d; [congruence|..];
    (match type of Hscan with
     | scan_digits ?s _ _ _ = _ =>
         split;
         [apply (py_int_scanned 1 s s _ _ eq_refl Hscan Hk)
         |apply (py_int_scanned (-1) s (String "-" s) _ _ eq_refl Hscan Hk)]
     end;
     rewrite N.add_0_l; exact Hlen).
Qed.

(** int(str(n)) = n, as long as str(n) stays within the digit limit. *)
Lemma py_int_str_of_int (n : Z) :
  (digits_of_int n <= int_max_str_digits)%N ->
  py_int (str_of_int n) = Some n.
Proof.
  unfold digits_of_int, str_of_int. destruct n as [|p|p]; intros Hlen.
  - reflexivity.
  - cbn [Z.to_int NilZero.string_of_int Decimal.abs] in *.
    pose proof (DecimalPos.Unsigned.to_uint_nonnil p) as Hnil.
    assert (Hs : NilZero.string_of_uint (Pos.to_uint p)
                 = NilEmpty.string_of_uint (Pos.to_uint p))
      by (destruct (Pos.to_uint p); [congruence|reflexivity..]).
    rewrite Hs in *.
    destruct (py_int_of_uint _ Hnil Hlen) as [-> _].
    rewrite uint_value_0, DecimalPos.Unsigned.of_to. reflexivity.
  - cbn [Z.to_int NilZero.string_of_int Decimal.abs] in *.
    pose proof (DecimalPos.Unsigned.to_uint_nonnil p) as Hnil.
    assert (Hs : NilZero.string_of_uint (Pos.to_uint p)
                 = NilEmpty.string_of_uint (Pos.to_uint p))
      by (destruct (Pos.to_uint p); [congruence|reflexivity..]).
    rewrite Hs in *.
    destruct (py_int_of_uint _ Hnil Hlen) as [_ ->].
    rewrite uint_value_0, DecimalPos.Unsigned.of_to. reflexivity.
Qed.

(** ** More on line_repeater *)

(** A dialog blocks, exits, or returns a value; it produces dialog events
    only, and it keeps the empty string out of the global. *)
Lemma get_input_outcomes (Title Message : string) (w : world) :
  exists tr w',
    Forall (fun e => is_dialog e = true) tr /\
    (get_input_from_tk_window Title Message w = Run tr w' Blocks \/
     get_input_from_tk_window Title Message w = Run tr w' (Raise SystemExit) \/
     exists v,
       get_input_from_tk_window Title Message w = Run tr w' (Ok v) /\
       (input_value w <> PyStr "" ->
        v <> PyStr "" /\ input_value w' <> PyStr "")).
Proof.
  pose proof (get_input_events Title Message w) as Hev.
  destruct (get_input_cases Title Message w)
    as [[_ H]|[(rest & _ & H)|[(rest & _ & H)|
        [(text & rest & Hu & Ht & H)|(rest & Hu & H)]]]];
    rewrite H in Hev; cbn [trace] in Hev;
    eexists; eexists; (split; [exact Hev|]).
  - left. exact H.
  - right. left. exact H.
  - right. left. exact H.
  - right. right. exists (PyStr text). split; [exact H|].
    intros _. cbn [input_value].
    split; intros Heq; injection Heq as Heq; exact (Ht Heq).
  - right. right. exists (input_value w). split; [exact H|].
    intros Hw. cbn [input_value]. split; exact Hw.
Qed.

Lemma dialog_events_no_keystroke (tr : list event) :
  Forall (fun e => is_dialog e = true) tr ->
  Forall (fun e => is_keystroke e = false) tr.
Proof.
  apply Forall_impl. exact dialog_not_keystroke.
Qed.

Section SecondPrompt.

  Variables (w0 w1 w2 : world) (tr1 tr2 : list event) (line : pyval).
  Hypothesis Hline :
    get_input_from_tk_window line_title line_message w0
    = Run tr1 w1 (Ok line).

Lemma line_repeater_second_exits (c : Z) :
  get_input_from_tk_window line_title count_message w1
  = Run tr2 w2 (Raise SystemExit) ->
  line_repeater c w0 = Run (tr1 ++ tr2) w2 (Raise SystemExit).
Proof.
  intros H2. unfold line_repeater.
  fold line_title line_message count_message.
  apply (bind_ok_eq _ _ _ _ _ _ _ _ _ Hline).
  apply (bind_raise _ _ _ _ _ _ H2).
Qed.

Lemma line_repeater_second_blocks (c : Z) :
  get_input_from_tk_window line_title count_message w1
  = Run tr2 w2 Blocks ->
  line_repeater c w0 = Run (tr1 ++ tr2) w2 Blocks.
Proof.
  intros H2. unfold line_repeater.
  fold line_title line_message count_message.
  apply (bind_ok_eq _ _ _ _ _ _ _ _ _ Hline).
  apply (bind_blocks _ _ _ _ _ H2).
Qed.

Lemma line_repeater_count_none (c : Z) :
  get_input_from_tk_window line_title count_message w1
  = Run tr2 w2 (Ok PyNone) ->
  line_repeater c w0 = Run (tr1 ++ tr2) w2 (Raise TypeError_concat).
Proof.
  intros H2. unfold line_repeater.
  fold line_title line_message count_message.
  apply (bind_ok_eq _ _ _ _ _ _ _ _ _ Hline).
  rewrite <- (app_nil_r tr2).
  apply (bind_ok_eq _ _ _ _ _ _ _ _ _ H2).
  reflexivity.
Qed.

End SecondPrompt.

Lemma repeat_line_events (line : string) (times : Z) (delay : Q)
  (key : string) (w : world) (e : event) :
  In e (trace (repeat_line (PyStr line) times delay key w)) ->
  e = Typewrite line (1 # 10) \/ In e (submit_events key) \/ e = Sleep delay.
Proof.
  destruct (sleep_accepts_cases delay) as [[Hd Hs]|Hno].
  - rewrite (repeat_line_run line times delay key w Hd Hs). cbn [trace].
    intros Hin. apply in_iterations in Hin. unfold iteration in Hin.
    destruct Hin as [<-|Hin]; [left; reflexivity|].
    apply in_app_or in Hin. destruct Hin as [Hin|[<-|[]]]; auto.
  - destruct (Z.leb_spec 1 times) as [Ht|Ht].
    + destruct (time_sleep_refuses delay Hno) as [e' He].
      rewrite (repeat_line_refused_delay line times delay key w e' Ht (He w)).
      cbn [trace]. intros [<-|Hin]; auto.
    + unfold repeat_line. rewrite range_nonpos by lia. intros [].
Qed.

(** The shape of every run of line_repeater: either it holds no keystroke
    at all, or the two dialogs are followed by the acknowledgment, the
    countdown and the events of the one call of repeat_line. *)
Lemma line_repeater_shape (c : Z) (w0 : world) :
  Forall (fun e => is_keystroke e = false) (trace (line_repeater c w0)) \/
  (0 <= c /\
   exists pre line times n w2,
     Forall (fun e => is_dialog e = true) pre /\
     py_int times = Some n /\
     (input_value w0 <> PyStr "" -> line <> PyStr "") /\
     trace (line_repeater c w0)
     = (pre ++ acknowledgment times c :: Sleep (inject_Z c)
            :: trace (repeat_line line n (1 # 2) "shift+enter" w2))%list).
Proof.
  destruct (get_input_outcomes line_title line_message w0)
    as (tr1 & w1 & Hd1 & [H1|[H1|(line & H1 & Hne1)]]).
  - left. unfold line_repeater. fold line_title line_message count_message.
    rewrite (bind_blocks _ _ _ _ _ H1). cbn [trace].
    exact (dialog_events_no_keystroke _ Hd1).
  - left. unfold line_repeater. fold line_title line_message count_message.
    rewrite (bind_raise _ _ _ _ _ _ H1). cbn [trace].
    exact (dialog_events_no_keystroke _ Hd1).
  - destruct (get_input_outcomes line_title count_message w1)
      as (tr2 & w2 & Hd2 & [H2|[H2|(times & H2 & _)]]).
    + left. rewrite (line_repeater_second_blocks _ _ _ _ _ _ H1 c H2).
      cbn [trace]. apply dialog_events_no_keystroke.
      apply Forall_app. split; assumption.
    + left. rewrite (line_repeater_second_exits _ _ _ _ _ _ H1 c H2).
      cbn [trace]. apply dialog_events_no_keystroke.
      apply Forall_app. split; assumption.
    + destruct times as [|times].
      * left. rewrite (line_repeater_count_none _ _ _ _ _ _ H1 c H2).
        cbn [trace]. apply dialog_events_no_keystroke.
        apply Forall_app. split; assumption.
      * destruct (sleep_accepts (inject_Z c)) eqn:Hacc.
        2:{ left.
            destruct (line_repeater_refused _ _ _ _ _ _ _ H1 H2 c Hacc)
              as (tail & e & -> & Htail).
            cbn [trace]. repeat (apply Forall_app; split);
              try (apply dialog_events_no_keystroke; assumption).
            destruct Htail as [->| ->]; repeat constructor. }
        rewrite sleep_accepts_inject_Z in Hacc.
        apply andb_true_iff in Hacc. destruct Hacc as [Hc Hs].
        apply Z.leb_le in Hc, Hs.
        -- pose proof (line_repeater_prompted _ _ _ _ _ _ _ H1 H2 c Hc Hs)
             as Hrun.
           destruct (py_int times) as [n|] eqn:Hint.
           ++ right. split; [exact Hc|].
              exists (tr1 ++ tr2)%list, line, times, n, w2.
              split; [apply Forall_app; split; assumption|].
              split; [exact Hint|]. split.
              ** intros Hw. exact (proj1 (Hne1 Hw)).
              ** rewrite Hrun. cbn [trace]. rewrite <- app_assoc.
                 reflexivity.
           ++ left. rewrite Hrun. cbn [trace].
              repeat (apply Forall_app; split);
                try (apply dialog_events_no_keystroke; assumption).
              repeat constructor.
Qed.

(** X8. In every run of line_repeater, whatever the user does and
    whatever the countdown, a keystroke (typewrite, press, hotkey) comes
    only after the acknowledgment and the countdown sleep, which is then
    non-negative, and nothing but dialog events comes before these two. *)
Theorem keystrokes_after_countdown (c : Z) (w0 : world) (e : event) :
  In e (trace (line_repeater c w0)) -> is_keystroke e = true ->
  0 <= c /\
  exists pre times rest,
    trace (line_repeater c w0)
    = (pre ++ ShowInfo "Line Repeator" (ack_message times c)
           :: Sleep (inject_Z c) :: rest)%list /\
    Forall (fun e' => is_dialog e' = true) pre /\
    In e rest.
Proof.
  intros Hin Hk.
  destruct (line_repeater_shape c w0)
    as [Hno|(Hc & pre & line & times & n & w2 & Hpre & _ & _ & Htr)].
  - rewrite Forall_forall in Hno. rewrite (Hno e Hin) in Hk. discriminate Hk.
  - split; [exact Hc|].
    exists pre, times, (trace (repeat_line line n (1 # 2) "shift+enter" w2)).
    split; [exact Htr|]. split; [exact Hpre|].
    rewrite Htr in Hin. apply in_app_or in Hin.
    destruct Hin as [Hin|[<-|[<-|Hin]]].
    + rewrite Forall_forall in Hpre.
      rewrite (dialog_not_keystroke e (Hpre e Hin)) in Hk. discriminate Hk.
    + discriminate Hk.
    + discriminate Hk.
    + exact Hin.
Qed.

Lemma keystrokes_after_countdown_witness :
  0 <= 7 /\
  exists pre times rest,
    trace (line_repeater 7 hello3)
    = (pre ++ ShowInfo "Line Repeator" (ack_message times 7)
           :: Sleep (inject_Z 7) :: rest)%list /\
    Forall (fun e' => is_dialog e' = true) pre /\
    In (Hotkey ["shift"; "enter"]) rest.
Proof.
  apply (keystrokes_after_countdown 7 hello3 (Hotkey ["shift"; "enter"])).
  - vm_compute. do 19 right. left. reflexivity.
  - reflexivity.
Defined.

(** X9. As long as the global input_value is not the empty string at the
    start (it is None when the script starts), line_repeater never types
    an empty line: every typewrite of a run has a non-empty message. *)
Theorem line_repeater_never_types_empty
  (c : Z) (w0 : world) (s : string) (interval : Q) :
  input_value w0 <> PyStr "" ->
  In (Typewrite s interval) (trace (line_repeater c w0)) ->
  s <> "".
Proof.
  intros Hw Hin.
  destruct (line_repeater_shape c w0)
    as [Hno|(Hc & pre & line & times & n & w2 & Hpre & _ & Hne & Htr)].
  - rewrite Forall_forall in Hno. specialize (Hno _ Hin). discriminate Hno.
  - rewrite Htr in Hin. apply in_app_or in Hin.
    destruct Hin as [Hin|[Hin|[Hin|Hin]]]; try discriminate Hin.
    + rewrite Forall_forall in Hpre. specialize (Hpre _ Hin).
      discriminate Hpre.
    + destruct line as [|line].
      * rewrite repeat_line_none_run in Hin. destruct Hin.
      * apply repeat_line_events in Hin.
        destruct Hin as [Heq|[Hin|Heq]].
        -- injection Heq as -> _. intros ->. exact (Hne Hw eq_refl).
        -- destruct Hin as [Heq|[]]. discriminate Heq.
        -- discriminate Heq.
Qed.

Lemma line_repeater_never_types_empty_witness :
  input_value hello3 <> PyStr "" /\
  In (Typewrite "hello" (1 # 10)) (trace (line_repeater 7 hello3)) /\
  "hello" <> "".
Proof.
  assert (Hw : input_value hello3 <> PyStr "") by discriminate.
  assert (Hin : In (Typewrite "hello" (1 # 10))
                   (trace (line_repeater 7 hello3)))
    by (vm_compute; do 18 right; left; reflexivity).
  split; [exact Hw|]. split; [exact Hin|].
  exact (line_repeater_never_types_empty 7 hello3 "hello" (1 # 10) Hw Hin).
Defined.

(** X10. The global input_value is never reset between the dialogs: when
    the user submits a line and then closes the window of the count
    dialog, the count dialog returns that line, so the acknowledgment
    embeds the line as the count and the line is repeated int(line) times,
    or the run fails in int() when the line is not a number.  The
    countdown c is in the range where time.sleep is sure to sleep
    (0 <= c <= 4294967 seconds). *)
Theorem line_repeater_count_window_closed
  (c : Z) (line : string) (v : pyval) (rest : list user_action) :
  line <> "" -> 0 <= c <= 4294967 ->
  let w2 := {| input_value := PyStr line; user := rest |} in
  let dialogs :=
    ((TkWindow line_title line_message :: submitted_events line)
     ++ [TkWindow line_title count_message; RootDestroy])%list in
  line_repeater c
    {| input_value := v; user := ClickSubmit line :: CloseWindow :: rest |}
  = match py_int line with
    | Some n =>
        let rl := repeat_line (PyStr line) n (1 # 2) "shift+enter" w2 in
        Run (dialogs ++ ShowInfo "Line Repeator" (ack_message line c)
                     :: Sleep (inject_Z c) :: trace rl)
            (final rl) (outcome rl)
    | None =>
        Run (dialogs ++ [ShowInfo "Line Repeator" (ack_message line c);
                         Sleep (inject_Z c)])
            w2 (Raise (ValueError_int line))
    end.
Proof.
  intros Hl [Hc Hs] w2 dialogs. subst w2 dialogs.
  rewrite (line_repeater_prompted _ _ _ _ _ _ _
             (get_input_submit line_title line_message line v
                (CloseWindow :: rest) Hl)
             (get_input_close line_title count_message (PyStr line) rest)
             c Hc Hs).
  destruct (py_int line); cbv zeta; rewrite <- !app_assoc; reflexivity.
Qed.

Lemma line_repeater_count_window_closed_witness :
  line_repeater 7 (initial [ClickSubmit "2"; CloseWindow])
  = Run ((TkWindow line_title line_message :: submitted_events "2")
         ++ [TkWindow line_title count_message; RootDestroy]
         ++ [ShowInfo "Line Repeator" (ack_message "2" 7); Sleep 7;
             Typewrite "2" (1 # 10); Hotkey ["shift"; "enter"]; Sleep (1 # 2);
             Typewrite "2" (1 # 10); Hotkey ["shift"; "enter"]; Sleep (1 # 2)])
        {| input_value := PyStr "2"; user := [] |} (Ok tt).
Proof.
  apply (line_repeater_count_window_closed 7 "2" PyNone []).
  - discriminate.
  - lia.
Defined.

(** X11. When the count dialog returns None (its window was closed while
    the global was still None), line_repeater fails with TypeError in the
    concatenation that builds the acknowledgment: the run ends with the
    second dialog, without acknowledgment, countdown or keystroke. *)
Theorem line_repeater_count_is_none
  (w0 w1 w2 : world) (tr1 tr2 : list event) (line : pyval) (c : Z) :
  get_input_from_tk_window line_title line_message w0
  = Run tr1 w1 (Ok line) ->
  get_input_from_tk_window line_title count_message w1
  = Run tr2 w2 (Ok PyNone) ->
  let r := line_repeater c w0 in
  r = Run (tr1 ++ tr2) w2 (Raise TypeError_concat) /\
  count is_showinfo (trace r) = 0%nat /\
  count is_keystroke (trace r) = 0%nat.
Proof.
  intros H1 H2 r. subst r.
  rewrite (line_repeater_count_none _ _ _ _ _ _ H1 c H2).
  split; [reflexivity|]. cbn [trace].
  assert (Hd : Forall (fun e => is_dialog e = true) (tr1 ++ tr2)).
  { apply Forall_app. split.
    - replace tr1
        with (trace (get_input_from_tk_window line_title line_message w0))
        by (rewrite H1; reflexivity).
      apply get_input_events.
    - replace tr2
        with (trace (get_input_from_tk_window line_title count_message w1))
        by (rewrite H2; reflexivity).
      apply get_input_events. }
  split.
  - apply (count_dialog _ _ dialog_not_showinfo Hd).
  - apply (count_dialog _ _ dialog_not_keystroke Hd).
Qed.

Lemma line_repeater_count_is_none_witness :
  let r := line_repeater 7 (initial [CloseWindow; CloseWindow]) in
  r = Run ([TkWindow line_title line_message; RootDestroy]
           ++ [TkWindow line_title count_message; RootDestroy])
          (initial []) (Raise TypeError_concat) /\
  count is_showinfo (trace r) = 0%nat /\
  count is_keystroke (trace r) = 0%nat.
Proof.
  apply (line_repeater_count_is_none
           (initial [CloseWindow; CloseWindow]) (initial [CloseWindow])
           (initial []) _ _ PyNone 7).
  - reflexivity.
  - reflexivity.
Defined.

(** X12. When the line dialog returns None (its window was closed) and the
    count dialog returns a str that int() accepts, line_repeater c, for a
    countdown c in the range where time.sleep is sure to sleep (0 <= c <=
    4294967 seconds), shows the acknowledgment and sleeps the countdown;
    then, for a count of
    at least 1, it fails with TypeError in typewrite, and for a count of 0
    or less it returns normally.  Nothing is typed either way. *)
Theorem line_repeater_line_is_none
  (w0 w1 w2 : world) (tr1 tr2 : list event) (times : string) (c n : Z) :
  get_input_from_tk_window line_title line_message w0
  = Run tr1 w1 (Ok PyNone) ->
  get_input_from_tk_window line_title count_message w1
  = Run tr2 w2 (Ok (PyStr times)) ->
  0 <= c <= 4294967 -> py_int times = Some n ->
  line_repeater c w0
  = Run (tr1 ++ tr2 ++ [ShowInfo "Line Repeator" (ack_message times c);
                        Sleep (inject_Z c)])
        w2 (if 1 <=? n then Raise TypeError_iter else Ok tt).
Proof.
  intros H1 H2 [Hc Hs] Hint.
  rewrite (line_repeater_prompted _ _ _ _ _ _ _ H1 H2 c Hc Hs), Hint.
  cbv zeta. rewrite repeat_line_none_run. reflexivity.
Qed.

Lemma line_repeater_line_is_none_witness :
  line_repeater 7 (initial [CloseWindow; ClickSubmit "3"])
  = Run ([TkWindow line_title line_message; RootDestroy]
         ++ (TkWindow line_title count_message :: submitted_events "3")
         ++ [ShowInfo "Line Repeator" (ack_message "3" 7); Sleep 7])
        hello3_w2 (Raise TypeError_iter).
Proof.
  apply (line_repeater_line_is_none
           (initial [CloseWindow; ClickSubmit "3"])
           (initial [ClickSubmit "3"]) hello3_w2 _ _ "3" 7 3).
  - reflexivity.
  - reflexivity.
  - lia.
  - reflexivity.
Defined.

(** X13. With a negative countdown down to -9223372036 seconds,
    line_repeater still runs both dialogs and shows the acknowledgment,
    which names the negative number of seconds; it then fails with the
    ValueError of time.sleep, before the count is converted and before
    anything is typed. *)
Theorem line_repeater_negative_countdown
  (w0 w1 w2 : world) (tr1 tr2 : list event) (line : pyval) (times : string)
  (c : Z) :
  get_input_from_tk_window line_title line_message w0
  = Run tr1 w1 (Ok line) ->
  get_input_from_tk_window line_title count_message w1
  = Run tr2 w2 (Ok (PyStr times)) ->
  -9223372036 <= c < 0 ->
  let r := line_repeater c w0 in
  r = Run (tr1 ++ tr2 ++ [ShowInfo "Line Repeator" (ack_message times c)])
          w2 (Raise ValueError_sleep) /\
  sleeps (trace r) = (sleeps tr1 ++ sleeps tr2)%list /\
  count is_keystroke (trace r) = 0%nat.
Proof.
  intros H1 H2 [Hlo Hc] r. subst r.
  rewrite (line_repeater_refused_wait _ _ _ _ _ _ _ H1 H2 c ValueError_sleep
             (format_int_small c w2 ltac:(lia))
             (time_sleep_negative (inject_Z c) w2
                (inject_Z_le (-9223372036) c Hlo) (inject_Z_lt c 0 Hc))).
  split; [reflexivity|]. cbn [trace].
  destruct (prompt_traces_dialog _ _ _ _ _ _ _ H1 H2) as [Hd1 Hd2].
  split.
  - unfold sleeps. rewrite !flat_map_app. cbn [flat_map app].
    rewrite app_nil_r. reflexivity.
  - rewrite !count_app.
    rewrite (count_dialog _ _ dialog_not_keystroke Hd1).
    rewrite (count_dialog _ _ dialog_not_keystroke Hd2). reflexivity.
Qed.

Lemma line_repeater_negative_countdown_witness :
  let r := line_repeater (-7) hello3 in
  r = Run (hello3_tr1 ++ hello3_tr2
           ++ [ShowInfo "Line Repeator"
                 "The line will be repeated 3 times. Please switch to the target application and click on the text box to start the process in -7 Seconds."])
          hello3_w2 (Raise ValueError_sleep) /\
  sleeps (trace r) = (sleeps hello3_tr1 ++ sleeps hello3_tr2)%list /\
  count is_keystroke (trace r) = 0%nat.
Proof.
  apply (line_repeater_negative_countdown hello3 hello3_w1 hello3_w2
           hello3_tr1 hello3_tr2 (PyStr "hello") "3" (-7)).
  - reflexivity.
  - reflexivity.
  - lia.
Defined.

Lemma typed_chars_dialog (tr : list event) :
  Forall (fun e => is_dialog e = true) tr -> typed_chars tr = 0%nat.
Proof.
  intros H. induction H as [|e tr He _ IH]; [reflexivity|].
  change (e :: tr) with ([e] ++ tr)%list.
  rewrite typed_chars_app, IH.
  destruct e; try discriminate He; reflexivity.
Qed.

Lemma count_cons p (e : event) (tr : list event) :
  count p (e :: tr) = ((if p e then 1 else 0) + count p tr)%nat.
Proof. unfold count. cbn [filter]. destruct (p e); reflexivity. Qed.

Lemma typed_chars_cons (e : event) (tr : list event) :
  typed_chars (e :: tr)
  = ((match e with Typewrite s _ => String.length s | _ => 0 end)
     + typed_chars tr)%nat.
Proof. reflexivity. Qed.

Lemma dialog_not_hotkey e : is_dialog e = true -> is_hotkey e = false.
Proof. destruct e; intros H; try reflexivity; discriminate H. Qed.

Lemma dialog_not_press e : is_dialog e = true -> is_press e = false.
Proof. destruct e; intros H; try reflexivity; discriminate H. Qed.

Lemma str_of_int_nonempty (n : Z) : str_of_int n <> "".
Proof.
  unfold str_of_int. destruct n as [|p|p];
    cbn [Z.to_int NilZero.string_of_int]; try discriminate.
  unfold NilZero.string_of_uint.
  destruct (Pos.to_uint p); discriminate.
Qed.

(** X14. When the line prompt returns the str [line] and the count prompt
    a str that int() reads as n, line_repeater c, for a countdown c in the
    range where time.sleep is sure to sleep (0 <= c <= 4294967 seconds),
    returns normally after the acknowledgment, the countdown of c seconds
    and exactly n rounds (none for n <= 0) of: typewrite the line, hotkey shift+enter,
    sleep 0.5 seconds.  The run has n hotkeys, no plain key press and
    n * len(line) typed characters. *)
Theorem line_repeater_rounds
  (w0 w1 w2 : world) (tr1 tr2 : list event) (line times : string) (c n : Z) :
  get_input_from_tk_window line_title line_message w0
  = Run tr1 w1 (Ok (PyStr line)) ->
  get_input_from_tk_window line_title count_message w1
  = Run tr2 w2 (Ok (PyStr times)) ->
  0 <= c <= 4294967 -> py_int times = Some n ->
  let r := line_repeater c w0 in
  r = Run (tr1 ++ tr2 ++ ShowInfo "Line Repeator" (ack_message times c)
               :: Sleep (inject_Z c)
               :: concat (repeat [Typewrite line (1 # 10);
                                  Hotkey ["shift"; "enter"];
                                  Sleep (1 # 2)] (Z.to_nat n)))
          w2 (Ok tt) /\
  count is_hotkey (trace r) = Z.to_nat n /\
  count is_press (trace r) = 0%nat /\
  typed_chars (trace r) = (Z.to_nat n * String.length line)%nat.
Proof.
  intros H1 H2 [Hc Hs] Hint r. subst r.
  rewrite (line_repeater_prompted _ _ _ _ _ _ _ H1 H2 c Hc Hs), Hint.
  cbv zeta.
  rewrite (repeat_line_run line n (1 # 2) "shift+enter" w2)
    by (unfold Qle; simpl; lia).
  rewrite iteration_shift_enter. cbn [trace final outcome].
  split; [reflexivity|].
  destruct (prompt_traces_dialog _ _ _ _ _ _ _ H1 H2) as [Hd1 Hd2].
  split; [|split].
  - rewrite !count_app.
    rewrite (count_dialog _ _ dialog_not_hotkey Hd1).
    rewrite (count_dialog _ _ dialog_not_hotkey Hd2).
    rewrite 2 count_cons, count_iterations. unfold count, acknowledgment.
    cbn [filter is_hotkey length]. lia.
  - rewrite !count_app.
    rewrite (count_dialog _ _ dialog_not_press Hd1).
    rewrite (count_dialog _ _ dialog_not_press Hd2).
    rewrite 2 count_cons, count_iterations. unfold count, acknowledgment.
    cbn [filter is_press length]. lia.
  - rewrite !typed_chars_app.
    rewrite (typed_chars_dialog _ Hd1), (typed_chars_dialog _ Hd2).
    rewrite 2 typed_chars_cons, typed_chars_iterations.
    unfold typed_chars, acknowledgment.
    cbn [map list_sum fold_right]. lia.
Qed.

Lemma line_repeater_rounds_witness :
  let r := line_repeater 7 hello3 in
  r = Run (hello3_tr1 ++ hello3_tr2
           ++ ShowInfo "Line Repeator" (ack_message "3" 7)
           :: Sleep (inject_Z 7)
           :: concat (repeat [Typewrite "hello" (1 # 10);
                              Hotkey ["shift"; "enter"];
                              Sleep (1 # 2)] (Z.to_nat 3)))
          hello3_w2 (Ok tt) /\
  count is_hotkey (trace r) = Z.to_nat 3 /\
  count is_press (trace r) = 0%nat /\
  typed_chars (trace r) = (Z.to_nat 3 * String.length "hello")%nat.
Proof.
  apply (line_repeater_rounds hello3 hello3_w1 hello3_w2
           hello3_tr1 hello3_tr2 "hello" "3" 7 3).
  - reflexivity.
  - reflexivity.
  - lia.
  - reflexivity.
Defined.

(** X15. The script as started (countdown 7): when the user submits a
    non-empty line and then the decimal numeral of an integer n, as str(n)
    writes it and within the digit limit of int(), the run returns normally
    after both dialogs, the acknowledgment, 7 seconds of countdown and
    exactly n rounds (none for n <= 0) of typewrite, hotkey shift+enter,
    sleep 0.5 seconds. *)
Theorem main_decimal_count
  (line : string) (n : Z) (v : pyval) (rest : list user_action) :
  line <> "" -> (digits_of_int n <= int_max_str_digits)%N ->
  main {| input_value := v;
          user := ClickSubmit line :: ClickSubmit (str_of_int n) :: rest |}
  = Run ((TkWindow line_title line_message :: submitted_events line)
         ++ (TkWindow line_title count_message
               :: submitted_events (str_of_int n))
         ++ ShowInfo "Line Repeator" (ack_message (str_of_int n) 7)
         :: Sleep 7
         :: concat (repeat [Typewrite line (1 # 10);
                            Hotkey ["shift"; "enter"];
                            Sleep (1 # 2)] (Z.to_nat n)))
        {| input_value := PyStr (str_of_int n); user := rest |} (Ok tt).
Proof.
  intros Hl Hn. unfold main. cbn [call_line_repeater].
  rewrite (line_repeater_prompted _ _ _ _ _ _ _
             (get_input_submit line_title line_message line v
                (ClickSubmit (str_of_int n) :: rest) Hl)
             (get_input_submit line_title count_message (str_of_int n)
                (PyStr line) rest (str_of_int_nonempty n))
             7 ltac:(lia) ltac:(lia)).
  rewrite (py_int_str_of_int n Hn). cbv zeta.
  rewrite (repeat_line_run line n (1 # 2) "shift+enter")
    by (unfold Qle; simpl; lia).
  rewrite iteration_shift_enter. reflexivity.
Qed.

Lemma main_decimal_count_witness :
  main (initial [ClickSubmit "hello"; ClickSubmit (str_of_int 12)])
  = Run ((TkWindow line_title line_message :: submitted_events "hello")
         ++ (TkWindow line_title count_message
               :: submitted_events (str_of_int 12))
         ++ ShowInfo "Line Repeator" (ack_message (str_of_int 12) 7)
         :: Sleep 7
         :: concat (repeat [Typewrite "hello" (1 # 10);
                            Hotkey ["shift"; "enter"];
                            Sleep (1 # 2)] (Z.to_nat 12)))
        {| input_value := PyStr (str_of_int 12); user := [] |} (Ok tt).
Proof.
  apply (main_decimal_count "hello" 12 PyNone []).
  - discriminate.
  - vm_compute. discriminate.
Defined.
